(** * HL7-over-MLLP ingestion service: a shallow embedding of
    [srv/services/hl7Service.js]

  The development follows the source file top to bottom:
  - [JsString]: the JavaScript string methods the service calls
    ([indexOf], [substring], [split], [trim], [startsWith], ...);
  - [Sqlite]: the two tables the service touches and the three statements
    it hands to the database, executed against an explicit store;
  - [Hl7]: [mapGender], [processHL7MessageManual], the two handlers,
    [sendAck] and the [data] listener of [startHL7Server].

  Modelling conventions.
  - A JavaScript string is a Rocq [string]; every [ascii] stands for one
    code unit in the range 0..255.
  - [console.log], [console.error] and the appends to [hl7.log] are
    write-only and their failures are swallowed by the source; they are
    not modelled.
  - [db.run] and [db.get] only hand a statement and a callback to sqlite3;
    the callback runs on a later turn of the event loop.  A handler
    therefore returns a [job]: the statement it scheduled together with
    the callback as a continuation.
  - The system clock, [uuid.v4] and storage failures are inputs, supplied
    by an [oracle]. *)

From Stdlib Require Import ZArith Lia Ascii.
From stdpp Require Import base option list strings pretty gmap.

(* ===================================================================== *)
(** ** JavaScript string methods *)
(* ===================================================================== *)

Module JsString.

Definition VT : ascii := "011"%char.  (* \x0b *)
Definition FS : ascii := "028"%char.  (* \x1c *)
Definition CR : ascii := "013"%char.  (* \r *)
Definition LF : ascii := "010"%char.  (* \n *)

Definition ascii_eqb (a b : ascii) : bool := bool_decide (a = b).

Definition len (s : string) : Z := Z.of_nat (String.length s).

(** [s.startsWith(p)] *)
Fixpoint startsWith (p s : string) : bool :=
  match p, s with
  | EmptyString, _ => true
  | String _ _, EmptyString => false
  | String a p', String b s' => ascii_eqb a b && startsWith p' s'
  end.

Fixpoint drop (n : nat) (s : string) : string :=
  match n, s with
  | O, _ => s
  | S _, EmptyString => EmptyString
  | S n', String _ s' => drop n' s'
  end.

Fixpoint take (n : nat) (s : string) : string :=
  match n, s with
  | O, _ => EmptyString
  | S _, EmptyString => EmptyString
  | S n', String a s' => String a (take n' s')
  end.

(** Offset of the first occurrence of [p] in [s], scanning from the
    left. *)
Fixpoint search (p s : string) : option nat :=
  if startsWith p s then Some O
  else match s with
       | EmptyString => None
       | String _ s' => S <$> search p s'
       end.

(** Arguments of [indexOf] and [substring] are clamped into
    [0 .. s.length]. *)
Definition clamp (s : string) (i : Z) : nat :=
  Z.to_nat (Z.min (Z.max i 0) (len s))%Z.

(** [s.indexOf(p, from)]: -1 when [p] does not occur at or after
    [from]. *)
Definition indexOf (s p : string) (from : Z) : Z :=
  let k := clamp s from in
  match search p (drop k s) with
  | Some i => Z.of_nat (k + i)
  | None => (-1)%Z
  end.

(** [s.substring(a, b)]: both ends clamped, and swapped when [a > b]. *)
Definition substring (s : string) (a b : Z) : string :=
  let i := clamp s a in
  let j := clamp s b in
  let lo := Nat.min i j in
  let hi := Nat.max i j in
  take (hi - lo) (drop lo s).

(** [s.substring(a)] *)
Definition substringFrom (s : string) (a : Z) : string :=
  substring s a (len s).

(** [s.slice(0, n)] for a natural number [n]. *)
Definition slice0 (s : string) (n : nat) : string := take n s.

(** [s.split(c)] for a one-character separator. *)
Fixpoint split (c : ascii) (s : string) : list string :=
  match s with
  | EmptyString => [EmptyString]
  | String a s' =>
      if ascii_eqb a c then EmptyString :: split c s'
      else match split c s' with
           | h :: r => String a h :: r
           | [] => [String a EmptyString]
           end
  end.

(** [s.includes(c)] for a one-character needle. *)
Fixpoint includes (c : ascii) (s : string) : bool :=
  match s with
  | EmptyString => false
  | String a s' => ascii_eqb a c || includes c s'
  end.

(** [s.replace(/c/g, d)]: every [c] becomes [d]. *)
Fixpoint replaceAll (c d : ascii) (s : string) : string :=
  match s with
  | EmptyString => EmptyString
  | String a s' =>
      String (if ascii_eqb a c then d else a) (replaceAll c d s')
  end.

(** [s.replace(/c/g, '')]: every [c] is deleted. *)
Fixpoint removeAll (c : ascii) (s : string) : string :=
  match s with
  | EmptyString => EmptyString
  | String a s' =>
      if ascii_eqb a c then removeAll c s' else String a (removeAll c s')
  end.

(** White space and line terminators among the code units 0..255:
    TAB, LF, VT, FF, CR, SP and NBSP. *)
Definition isWhite (a : ascii) : bool :=
  let n := nat_of_ascii a in
  ((9 <=? n) && (n <=? 13) || (n =? 32) || (n =? 160))%nat.

Fixpoint trimStart (s : string) : string :=
  match s with
  | EmptyString => EmptyString
  | String a s' => if isWhite a then trimStart s' else s
  end.

Fixpoint trimEnd (s : string) : string :=
  match s with
  | EmptyString => EmptyString
  | String a s' =>
      match trimEnd s' with
      | EmptyString => if isWhite a then EmptyString
                       else String a EmptyString
      | t => String a t
      end
  end.

(** [s.trim()] *)
Definition trim (s : string) : string := trimEnd (trimStart s).

(** [s.toUpperCase()] on the letters a..z; the other code units are kept
    (the service compares the result with 'M' and 'F' only, and no code
    unit outside a..z has one of these as its upper case). *)
Definition upper (a : ascii) : ascii :=
  let n := nat_of_ascii a in
  if ((97 <=? n) && (n <=? 122))%nat then ascii_of_nat (n - 32) else a.

Fixpoint toUpperCase (s : string) : string :=
  match s with
  | EmptyString => EmptyString
  | String a s' => String (upper a) (toUpperCase s')
  end.

Definition eqb (s t : string) : bool := bool_decide (s = t).

(** A string in a boolean position: the empty string is falsy. *)
Definition truthy (s : string) : bool :=
  match s with EmptyString => false | _ => true end.

(** [xs[i] || ''] on an array of strings: a missing element is
    [undefined], which is falsy. *)
Definition at_or_empty (xs : list string) (i : nat) : string :=
  default EmptyString (xs !! i).

(** [a || b] on strings. *)
Definition or_else (a b : string) : string := if truthy a then a else b.

(** [xs.find(pred)] *)
Definition find (pred : string -> bool) (xs : list string) : option string :=
  List.find pred xs.

End JsString.

(* ===================================================================== *)
(** ** The database, as far as the service touches it *)
(* ===================================================================== *)

Module Sqlite.
Import JsString.

(** A row of [patients], with the columns the service names in its
    statement ([ssn] is the primary key, [gender] is nullable).  The table
    has further columns (see the schema in [docs/workflow.md]); a replaced
    row takes their defaults, and they are left out here. *)
Record patient := Patient {
  ssn : string;
  mobile_number : string;
  full_name : string;
  date_of_birth : string;
  gender : option string;
  address : string
}.

(** A row of [patient_visits], with the columns the service names
    ([visit_id] is the primary key). *)
Record visit := Visit {
  visit_id : string;
  patient_ssn : string;
  visit_status : string;
  primary_diagnosis : string;
  visit_type : string;
  department : string;
  created_by : string
}.

Record store := Store {
  patients : gmap string patient;
  patient_visits : list visit
}.

(** The statements passed to [db.run], with their bound parameters. *)
Inductive run_statement :=
| InsertOrReplacePatient
    (p_ssn p_mobile p_name p_dob : string) (p_gender : option string)
    (p_address : string)
    (* INSERT OR REPLACE INTO patients (ssn, mobile_number, full_name,
       date_of_birth, gender, address) VALUES (?, ?, ?, ?, ?, ?) *)
| InsertVisit (p_visit_id p_ssn p_diagnosis : string)
    (* INSERT INTO patient_visits (visit_id, patient_ssn, visit_status,
       primary_diagnosis, visit_type, department, created_by)
       VALUES (?, ?, 'open', ?, 'outpatient', 'radiology', 'hl7-system') *).

(** The statement passed to [db.get]. *)
Inductive get_statement :=
| SelectOpenVisit (p_ssn : string)
    (* SELECT visit_id FROM patient_visits WHERE patient_ssn = ?
       AND visit_status IN ('open', 'in_progress')
       AND created_by = 'hl7-system' *).

(** The WHERE clause of [SelectOpenVisit]. *)
Definition open_visit_of (p_ssn : string) (v : visit) : bool :=
  eqb (patient_ssn v) p_ssn
  && (eqb (visit_status v) "open" || eqb (visit_status v) "in_progress")
  && eqb (created_by v) "hl7-system".

Definition has_visit_id (id : string) (v : visit) : bool :=
  eqb (visit_id v) id.

(** [db.run]: the error handed to the callback ([None] is [null]) and the
    store afterwards.  [failure] is a storage failure decided outside the
    service; a failed statement changes nothing. *)
Definition run (failure : option string) (st : run_statement) (s : store)
  : option string * store :=
  match failure with
  | Some e => (Some e, s)
  | None =>
      match st with
      | InsertOrReplacePatient i m n d g a =>
          (None,
           Store (<[i := Patient i m n d g a]> (patients s))
                 (patient_visits s))
      | InsertVisit id i diag =>
          if existsb (has_visit_id id) (patient_visits s)
          then (Some "SQLITE_CONSTRAINT: UNIQUE constraint failed: patient_visits.visit_id", s)
          else (None,
                Store (patients s)
                      (patient_visits s ++
                       [Visit id i "open" diag "outpatient" "radiology"
                              "hl7-system"]))
      end
  end.

(** [db.get]: the error and the first row of the result, here its
    [visit_id] ([None] is [undefined]). *)
Definition get (failure : option string) (q : get_statement) (s : store)
  : option string * option string :=
  match failure with
  | Some e => (Some e, None)
  | None =>
      match q with
      | SelectOpenVisit i =>
          (None, visit_id <$> List.find (open_visit_of i) (patient_visits s))
      end
  end.

(** What a handler leaves behind when it returns: nothing, or a statement
    handed to sqlite3 together with its callback.  Inside a callback the
    source also calls [uuid.v4()]. *)
Inductive job :=
| Idle
| Run (st : run_statement) (callback : option string -> job)
| Get (q : get_statement) (callback : option string -> option string -> job)
| UuidV4 (k : string -> job).

(** One reading of the system clock: [new Date()] rendered both ways the
    source renders it, and [Date.now()]. *)
Record reading := Reading {
  toISOString : string;
  toTimeString : string;
  now : N
}.

(** Inputs the service does not control. *)
Record oracle := Oracle {
  storage_error : nat -> option string; (* does the n-th statement fail? *)
  uuid_v4 : nat -> string;              (* the n-th result of uuid.v4() *)
  clock : nat -> reading                (* the n-th reading of the clock *)
}.

Inductive event :=
| Ran (st : run_statement) (err : option string)
| Got (q : get_statement) (err : option string) (row : option string).

Record engine := Engine {
  db : store;
  statements : nat;     (* statements executed so far *)
  uuids : nat;          (* identifiers drawn so far *)
  trace : list event    (* what was executed, oldest first *)
}.

(** One job run to completion, no other statement in between. *)
Fixpoint exec (o : oracle) (j : job) (e : engine) : engine :=
  match j with
  | Idle => e
  | Run st callback =>
      let '(err, s) := run (storage_error o (statements e)) st (db e) in
      exec o (callback err)
           (Engine s (S (statements e)) (uuids e) (trace e ++ [Ran st err]))
  | Get q callback =>
      let '(err, row) := get (storage_error o (statements e)) q (db e) in
      exec o (callback err row)
           (Engine (db e) (S (statements e)) (uuids e)
                   (trace e ++ [Got q err row]))
  | UuidV4 k =>
      exec o (k (uuid_v4 o (uuids e)))
           (Engine (db e) (statements e) (S (uuids e)) (trace e))
  end.

Definition boot (s : store) : engine := Engine s 0 0 [].

End Sqlite.

(* ===================================================================== *)
(** ** The service *)
(* ===================================================================== *)

Module Hl7.
Import JsString Sqlite.

(** [hl7Service.js:10-19] *)
Module HL7_CONFIG.
Definition PATIENT_SSN_INDEX : nat := 3.
Definition PATIENT_NAME_INDEX : nat := 5.
Definition PATIENT_DOB_INDEX : nat := 7.
Definition PATIENT_GENDER_INDEX : nat := 8.
Definition PATIENT_ADDRESS_INDEX : nat := 11.
Definition ORDER_PLACER_NUM_INDEX : nat := 2.
Definition PROCEDURE_CODE_INDEX : nat := 4.
Definition REASON_FOR_EXAM_INDEX : nat := 13.
End HL7_CONFIG.

(** [hl7Service.js:29-38]; [None] is JavaScript's [null]. *)
Definition mapGender (hl7Gender : string) : option string :=
  if negb (truthy hl7Gender) then None
  else
    let u := toUpperCase hl7Gender in
    if eqb u "M" then Some "male"
    else if eqb u "F" then Some "female"
    else Some "other".

(** [!ssn || ssn.length !== 14] *)
Definition invalid_ssn (ssn : string) : bool :=
  negb (truthy ssn) || negb (len ssn =? 14)%Z.

(** [hl7Service.js:111-116]: the value of [fullName] for a given
    [patientName]. *)
Definition fullNameOf (patientName : string) : string :=
  if includes "^" patientName then
    let nameParts := split "^" patientName in
    (* LAST^FIRST^MIDDLE -> First Last *)
    trim (at_or_empty nameParts 1 +:+ " " +:+ at_or_empty nameParts 0)
  else patientName.

(** [hl7Service.js:100-134] *)
Definition handleADTPatientManual (segments : list string) : job :=
  match find (startsWith "PID|") segments with
  | None => Idle
  | Some pidSegment =>
      let pidFields := split "|" pidSegment in
      let ssn := at_or_empty pidFields HL7_CONFIG.PATIENT_SSN_INDEX in
      let patientName := at_or_empty pidFields HL7_CONFIG.PATIENT_NAME_INDEX in
      let dob := at_or_empty pidFields HL7_CONFIG.PATIENT_DOB_INDEX in
      let gender := at_or_empty pidFields HL7_CONFIG.PATIENT_GENDER_INDEX in
      let address := at_or_empty pidFields HL7_CONFIG.PATIENT_ADDRESS_INDEX in
      let fullName := fullNameOf patientName in
      let dbGender := mapGender gender in
      if invalid_ssn ssn then Idle
      else
        Run (InsertOrReplacePatient ssn "N/A" fullName dob dbGender address)
            (fun err => Idle)
  end.

(** [hl7Service.js:139-177] *)
Definition handleORMOrderManual (segments : list string) : job :=
  match find (startsWith "PID|") segments,
        find (startsWith "OBR|") segments with
  | Some pidSegment, Some obrSegment =>
      let pidFields := split "|" pidSegment in
      let obrFields := split "|" obrSegment in
      let ssn := at_or_empty pidFields HL7_CONFIG.PATIENT_SSN_INDEX in
      let procedureCode :=
        at_or_empty obrFields HL7_CONFIG.PROCEDURE_CODE_INDEX in
      let procedureDesc :=
        or_else (at_or_empty (split "^" procedureCode) 1) procedureCode in
      let reasonForExam :=
        at_or_empty obrFields HL7_CONFIG.REASON_FOR_EXAM_INDEX in
      if invalid_ssn ssn then Idle
      else
        (* Check for duplicate open visit *)
        Get (SelectOpenVisit ssn) (fun err row =>
          if negb (bool_decide (is_Some err)) && bool_decide (is_Some row)
          then Idle
          else
            UuidV4 (fun visitId =>
              Run (InsertVisit visitId ssn
                               (or_else reasonForExam procedureDesc))
                  (fun err => Idle)))
  | _, _ => Idle
  end.

(** Named parts of the two handlers, for the statements about them. *)

(** [pidFields[HL7_CONFIG.PATIENT_SSN_INDEX] || ''] *)
Definition ssn_of (pidSegment : string) : string :=
  at_or_empty (split "|" pidSegment) HL7_CONFIG.PATIENT_SSN_INDEX.

(** [reasonForExam || procedureDesc], the value bound to
    [primary_diagnosis], [hl7Service.js:149-151,172]. *)
Definition reason_of (obrSegment : string) : string :=
  let obrFields := split "|" obrSegment in
  let procedureCode :=
    at_or_empty obrFields HL7_CONFIG.PROCEDURE_CODE_INDEX in
  let procedureDesc :=
    or_else (at_or_empty (split "^" procedureCode) 1) procedureCode in
  let reasonForExam :=
    at_or_empty obrFields HL7_CONFIG.REASON_FOR_EXAM_INDEX in
  or_else reasonForExam procedureDesc.

(** The callback of the duplicate check, [hl7Service.js:160-176]. *)
Definition check_callback (ssn reason : string)
  : option string -> option string -> job :=
  fun err row =>
    if negb (bool_decide (is_Some err)) && bool_decide (is_Some row)
    then Idle
    else UuidV4 (fun visitId =>
           Run (InsertVisit visitId ssn reason) (fun err => Idle)).

(** [x === lit] where [x] may be [undefined]. *)
Definition is_str (x : option string) (lit : string) : bool :=
  bool_decide (x = Some lit).

(** [message.replace(/\n/g, '\r').split('\r').filter(s => s.trim().length > 0)] *)
Definition segments_of (message : string) : list string :=
  let normalizedMessage := replaceAll LF CR message in
  List.filter (fun s => (0 <? len (trim s))%Z) (split CR normalizedMessage).

(** [hl7Service.js:56-95]: the returned flag and what was handed to the
    database. *)
Definition processHL7MessageManual (message : string) : bool * job :=
  let segments := segments_of message in
  match find (startsWith "MSH|") segments with
  | None => (false, Idle)
  | Some mshSegment =>
      let mshFields := split "|" mshSegment in
      let messageType := at_or_empty mshFields 8 in
      let '(type, triggerEvent) :=
        if includes "^" messageType then
          let parts := split "^" messageType in
          (parts !! 0%nat, parts !! 1%nat)
        else (Some messageType, Some EmptyString) in
      if is_str type "ADT"
         && (is_str triggerEvent "A01" || is_str triggerEvent "A08")
      then (true, handleADTPatientManual segments)
      else if is_str type "ORM" && is_str triggerEvent "O01"
      then (true, handleORMOrderManual segments)
      else (true, Idle) (* Acknowledge receipt even if unhandled *)
  end.

(** [hl7Service.js:48-51] *)
Definition processHL7Message (rawMessage : string) : bool * job :=
  processHL7MessageManual rawMessage.

(** What the service does to a socket. *)
Inductive socket_call :=
| SocketWrite (chunk : string)
| SocketEnd
| SocketDestroy.

Definition ackCode (success : bool) : string :=
  if success then "AA" else "AE".

Definition timestamp (r : reading) : string :=
  removeAll "-" (slice0 (toISOString r) 10)
  +:+ removeAll ":" (slice0 (toTimeString r) 8).

Definition FS_CR : string := String FS (String CR EmptyString).
Definition VT_ : string := String VT EmptyString.

(** The first line of the template literal of [sendAck]. *)
Definition ackHeader (r : reading) : string :=
  let ackId := "ACK" +:+ pretty (now r) in
  "MSH|^~\&|RAD|FACILITY|SENDER|FACILITY|" +:+ timestamp r
  +:+ "||ACK|" +:+ ackId +:+ "|P|2.5".

(** [hl7Service.js:182-193]: the chunk passed to [socket.write].  An
    omitted argument takes the default of the signature,
    [success = true, messageId = 'MSG']. *)
Definition sendAck (r : reading) (success : option bool)
    (messageId : option string) : socket_call :=
  let success := default true success in
  let messageId := default "MSG" messageId in
  SocketWrite
    (String VT
       (ackHeader r
        +:+ String CR
              ("MSA|" +:+ ackCode success +:+ "|" +:+ messageId +:+ FS_CR))).

(** What one accepted connection has done so far: the calls made on its
    socket (oldest first), the jobs handed to the database (oldest first)
    and the number of clock readings taken. *)
Record session := Session {
  socket : list socket_call;
  handed : list job;
  readings : nat
}.

(** [buffer.indexOf('\x0b')] and [buffer.indexOf('\x1c\r', vtIndex)] *)
Definition vtIndex (buffer : string) : Z := indexOf buffer VT_ 0.
Definition fsIndex (buffer : string) : Z :=
  indexOf buffer FS_CR (vtIndex buffer).

(** [vtIndex >= 0 && fsIndex > vtIndex] *)
Definition frame_ready (buffer : string) : bool :=
  ((0 <=? vtIndex buffer) && (vtIndex buffer <? fsIndex buffer))%Z.

(** The [try] block of the loop, [hl7Service.js:235-241].  No statement
    of [processHL7Message] throws on a string, so the [catch] branch,
    which would call [sendAck(socket, false)], is never taken. *)
Definition serve (o : oracle) (hl7Message : string) (s : session) : session :=
  let '(success, j) := processHL7Message hl7Message in
  Session (socket s ++ [sendAck (clock o (readings s)) (Some success) None])
          (handed s ++ [j])
          (S (readings s)).

(** The [while] loop, [hl7Service.js:215-249], for any loop body
    [handle].  The source computes both indices before the loop and again
    at the end of each turn; here they are computed from the buffer at
    the head of each turn. *)
Fixpoint frames {A : Type} (handle : string -> A -> A)
    (fuel : nat) (buffer : string) (a : A) : string * A :=
  match fuel with
  | O => (buffer, a)
  | S fuel' =>
      if frame_ready buffer then
        let hl7Message :=
          substring buffer (vtIndex buffer + 1) (fsIndex buffer) in
        frames handle fuel'
               (substringFrom buffer (fsIndex buffer + 2))
               (handle hl7Message a)
      else (buffer, a)
  end.

(** One accepted connection: the closure variable [buffer] and what the
    connection has done. *)
Definition connection : Type := string * session.

Definition accepted : connection := (EmptyString, Session [] [] 0).

(** The [data] listener, [hl7Service.js:210-250].  Every turn of the loop
    shortens the buffer, so its length bounds the number of turns. *)
Definition onData (o : oracle) (c : connection) (data : string) : connection :=
  let buffer := fst c +:+ data in
  frames (serve o) (String.length buffer) buffer (snd c).

(** The messages the loop hands to its body, in order, and the buffer it
    leaves. *)
Definition extractFrames (buffer : string) : list string * string :=
  let '(rest, found) :=
    frames (fun m acc => acc ++ [m]) (String.length buffer) buffer [] in
  (found, rest).

(** The MLLP envelope, as [sendAck] and the repository's test clients
    build it: [<VT> message <FS><CR>]. *)
Definition wrap (message : string) : string :=
  String VT (message +:+ FS_CR).

End Hl7.

(* ===================================================================== *)
(** ** The sending system's view of the wire *)
(* ===================================================================== *)

(** These definitions are not part of the service: they say how a message
  on the wire is read, so that the theorems can speak of "the MSA segment
  of the ACK" and "the control ID of the message". *)
Module Wire.
Import JsString Hl7.

(** [s] without its final [<FS><CR>]. *)
Fixpoint strip_end (s : string) : option string :=
  match s with
  | EmptyString => None
  | String a s' =>
      if eqb s FS_CR then Some EmptyString else String a <$> strip_end s'
  end.

(** The payload of one MLLP frame. *)
Definition unwrap (chunk : string) : option string :=
  match chunk with
  | String a s => if ascii_eqb a VT then strip_end s else None
  | EmptyString => None
  end.

(** The text after the last carriage return. *)
Fixpoint last_segment (s : string) : string :=
  match s with
  | EmptyString => EmptyString
  | String a s' =>
      if includes CR s' then last_segment s'
      else if ascii_eqb a CR then s' else s
  end.

(** The fields of the last segment of an ACK written to the socket; for
    the two-segment message of [sendAck] this is its MSA segment. *)
Definition msa (call : socket_call) : option (list string) :=
  match call with
  | SocketWrite chunk => (fun m => split "|" (last_segment m)) <$> unwrap chunk
  | _ => None
  end.

(** The fields of the first segment of [message] called [name]. *)
Definition fields_of (name message : string) : option (list string) :=
  split "|" <$> find (startsWith (name +:+ "|")) (segments_of message).

(** MSH-10, the message control ID: the separator after [MSH] is itself
    MSH-1, so MSH-n is element n-1 of the split. *)
Definition controlId (message : string) : option string :=
  fields_of "MSH" message ≫= (fun fs => fs !! 9%nat).

(** PID-3 *)
Definition pid3 (message : string) : option string :=
  fields_of "PID" message ≫= (fun fs => fs !! 3%nat).

(** The first token of a segment. *)
Definition segment_name (seg : string) : string :=
  at_or_empty (split "|" seg) 0.

Definition is_digit (a : ascii) : bool :=
  let n := nat_of_ascii a in ((48 <=? n) && (n <=? 57))%nat.

Fixpoint all_digits (s : string) : bool :=
  match s with
  | EmptyString => true
  | String a s' => is_digit a && all_digits s'
  end.

(** [/^\d{14}$/.test(s)] *)
Definition fourteen_digits (s : string) : bool :=
  (String.length s =? 14)%nat && all_digits s.

(** [p] occurs in [s]. *)
Definition occurs (p s : string) : Prop :=
  exists pre post, s = pre +:+ p +:+ post.

Definition is_write (c : socket_call) : Prop :=
  match c with SocketWrite _ => True | _ => False end.

End Wire.

(* ===================================================================== *)
(** ** Concrete messages, stores and oracles *)
(* ===================================================================== *)

Module Scenario.
Import JsString Sqlite Hl7 Wire.

(** The ADT^A01 message of the end-to-end scenario. *)
Definition adt_a01 : string :=
  "MSH|^~\&|S|F|RAD|F|20251005120000||ADT^A01|MSG001|P|2.5"
  +:+ String CR "PID|1||26409301400274||AHMED^MOHAMED||19900101|M".

(** The same message with a letter as last character of PID-3. *)
Definition adt_letter_id : string :=
  "MSH|^~\&|S|F|RAD|F|20251005120000||ADT^A01|MSG001|P|2.5"
  +:+ String CR "PID|1||2640930140027X||AHMED^MOHAMED||19900101|M".

(** A message without header segment. *)
Definition headless : string :=
  "PID|1||26409301400274||AHMED^MOHAMED||19900101|M".

(** The ORM^O01 message of [test-hl7.js].  Its OBR-13 is empty (the
    text CHEST PAIN sits three fields further), so the reason bound to
    the visit is the description of OBR-4, CHEST X-RAY. *)
Definition orm_o01 : string :=
  "MSH|^~\&|SENDING_APP|SENDING_FACILITY|RAD|FACILITY|20251005120100||ORM^O01|MSG002|P|2.5"
  +:+ String CR "PID|1||26409301400275||AHMED^MOHAMED||19900101|M"
  +:+ String CR "PV1|1|O|RAD^101^1||||123456^ALI^HASSAN^S^MD"
  +:+ String CR "ORC|NW|ORDER001|||||^^^20251005120100"
  +:+ String CR "OBR|1|ORDER001||RAD001^CHEST X-RAY^C4|||20251005120100|||||||||CHEST PAIN".

Definition noon : reading :=
  Reading "2025-10-05T10:00:00.000Z" "12:00:00 GMT+0200 (EET)"
          1759658400000.

(** Storage that works. *)
Definition calm : oracle :=
  Oracle (fun _ => None) (fun n => "visit-" +:+ pretty n) (fun _ => noon).

(** Storage that fails on every statement. *)
Definition failing : oracle :=
  Oracle (fun _ => Some "SQLITE_IOERR: disk I/O error")
         (fun n => "visit-" +:+ pretty n) (fun _ => noon).

(** Storage whose first statement fails and whose later ones work. *)
Definition failing_once : oracle :=
  Oracle (fun n => match n with
                   | O => Some "SQLITE_BUSY: database is locked"
                   | S _ => None
                   end)
         (fun n => "visit-" +:+ pretty n) (fun _ => noon).

Definition empty_store : store := Store ∅ [].

(** A store that knows the patient of [adt_a01], with a mobile number. *)
Definition known_patient : store :=
  Store {[ "26409301400274" :=
             Patient "26409301400274" "01001234567" "Ahmed M." "1990-01-01"
                     (Some "male") "Cairo" ]} [].

(** A store with an open visit of the patient of [orm_o01], created by
    the service for another reason. *)
Definition open_follow_up : store :=
  Store ∅ [Visit "visit-0" "26409301400275" "open" "FOLLOW-UP"
                 "outpatient" "radiology" "hl7-system"].

(** The code and the referenced control ID of the last ACK written by
    [serve]: MSA-1 and MSA-2, elements 1 and 2 of the split. *)
Definition ack_of (o : oracle) (m : string) (s : session)
  : option (list string) :=
  last (socket (serve o m s)) ≫= msa.

Definition ack_code (o : oracle) (m : string) (s : session) : option string :=
  ack_of o m s ≫= (fun fs => fs !! 1%nat).

Definition ack_reference (o : oracle) (m : string) (s : session)
  : option string :=
  ack_of o m s ≫= (fun fs => fs !! 2%nat).

(** Did a statement of the trace fail? *)
Definition failed (ev : event) : bool :=
  match ev with
  | Ran _ (Some _) | Got _ (Some _) _ => true
  | _ => false
  end.

(** Was an INSERT into [patient_visits] issued? *)
Definition inserts_visit (ev : event) : bool :=
  match ev with
  | Ran (InsertVisit _ _ _) _ => true
  | _ => false
  end.

(** The duplicate as the specification words it: an open or in-progress
    visit of the patient, created by the service, with the same reason. *)
Definition same_reason_visit (i reason : string) (v : visit) : bool :=
  open_visit_of i v && eqb (primary_diagnosis v) reason.

(** The events a job adds to the trace. *)
Definition issued (o : oracle) (j : job) (e : engine) : list event :=
  List.skipn (length (trace e)) (trace (exec o j e)).

(** The job of a message: what [processHL7Message] hands to the
    database. *)
Definition job_of (m : string) : job := snd (processHL7Message m).

End Scenario.

(* ===================================================================== *)
(** ** The test clients and streams of frames *)
(* ===================================================================== *)

Module Client.
Import JsString Sqlite Hl7 Wire.

(** [s.includes(p)] for a string needle. *)
Definition includesStr (s p : string) : bool :=
  match search p s with Some _ => true | None => false end.

(** [test-hl7.js:29]: the chunk [sendHL7Message] writes,
    ['\x0b' + message.replace(/\n/g, '\r') + '\x1c\r']. *)
Definition mllpMessage (message : string) : string :=
  String VT (replaceAll LF CR message +:+ FS_CR).

(** [test-hl7.js:43]: the client takes the response as complete when
    [responseBuffer.includes('\x1c\r')]. *)
Definition responseComplete (responseBuffer : string) : bool :=
  includesStr responseBuffer FS_CR.

(** [test-hl7.js:76,88]: [response.includes('MSA|AA|')]. *)
Definition messageAccepted (response : string) : bool :=
  includesStr response "MSA|AA|".

(** [tests/test_hl7_client.js:36]: [data.toString().includes('|AA|')]. *)
Definition checkAccepted (data : string) : bool :=
  includesStr data "|AA|".

(** [test-hl7.js:10-13]: the sample registration message, its lines
    separated by line feeds as in the template literal. *)
Definition adtMessage : string :=
  "MSH|^~\&|SENDING_APP|SENDING_FACILITY|RAD|FACILITY|20251005120000||ADT^A01|MSG001|P|2.5"
  +:+ String LF "EVN|A01|20251005120000"
  +:+ String LF "PID|1||26409301400274||AHMED5^MOHAMED||19900101|M|||15 Nile Street^Cairo^Egypt^12345||+20123456789||ARABIC|MUSLIM"
  +:+ String LF "PV1|1|I|RAD^101^1||||123456^ALI^HASSAN^S^MD|||||||ADM|||20251005120000".

(** A message whose MSH-9 has no trigger component. *)
Definition adt_no_trigger : string :=
  "MSH|^~\&|S|F|RAD|F|20251005120000||ADT|MSG001|P|2.5"
  +:+ String CR "PID|1||26409301400274||AHMED^MOHAMED||19900101|M".

(** A registration whose PID-3 is five digits long. *)
Definition adt_short_id : string :=
  "MSH|^~\&|S|F|RAD|F|20251005120000||ADT^A01|MSG001|P|2.5"
  +:+ String CR "PID|1||12345||AHMED^MOHAMED||19900101|M".

(** The buffer [junk <VT> payload <FS><CR> rest]. *)
Definition framed (junk payload rest : string) : string :=
  junk +:+ String VT (payload +:+ FS_CR +:+ rest).

(** Frames written back to back, as one sender delivers them. *)
Fixpoint stream (payloads : list string) : string :=
  match payloads with
  | [] => EmptyString
  | p :: ps => wrap p +:+ stream ps
  end.

(** The [try] block of the listener run on each message in turn. *)
Definition serve_all (o : oracle) (messages : list string) (s : session)
  : session :=
  fold_left (fun s m => serve o m s) messages s.

(** The CHECK constraint on [patients.gender] in the schema
    ([docs/workflow.md]): NULL, or one of male, female, other. *)
Definition gender_ok (g : option string) : Prop :=
  g = None \/ g = Some "male" \/ g = Some "female" \/ g = Some "other".

(** Every row of [patients] sits under its own [ssn] and satisfies the
    constraint on [gender]. *)
Definition patients_ok (s : store) : Prop :=
  forall k p, patients s !! k = Some p -> ssn p = k /\ gender_ok (gender p).

(** The chunk of a socket call. *)
Definition chunk_of (c : socket_call) : string :=
  match c with SocketWrite chunk => chunk | _ => EmptyString end.

End Client.

(* ===================================================================== *)
(** ** Facts about the string methods *)
(* ===================================================================== *)

(** stdpp keeps [simpl] from unfolding string concatenation; the proofs
  below step through it. *)
Local Arguments String.append !_ _ / : simpl nomatch.

Section StringFacts.
Import JsString Hl7 Wire.

Lemma ascii_eqb_eq a b : ascii_eqb a b = true <-> a = b.
Proof. unfold ascii_eqb. apply bool_decide_eq_true. Qed.

Lemma ascii_eqb_refl a : ascii_eqb a a = true.
Proof. by apply ascii_eqb_eq. Qed.

Lemma ascii_eqb_neq a b : a <> b -> ascii_eqb a b = false.
Proof. intros H. unfold ascii_eqb. by apply bool_decide_eq_false. Qed.

Lemma str_length_app s t :
  String.length (s +:+ t) = (String.length s + String.length t)%nat.
Proof. induction s as [|a s IH]; simpl; [done | by rewrite IH]. Qed.

Lemma str_app_assoc s t u : (s +:+ t) +:+ u = s +:+ t +:+ u.
Proof. induction s as [|a s IH]; simpl; [done | by rewrite IH]. Qed.

Lemma str_app_empty_r s : s +:+ EmptyString = s.
Proof. induction s as [|a s IH]; simpl; [done | by rewrite IH]. Qed.

Lemma str_length_drop n s :
  String.length (drop n s) = (String.length s - n)%nat.
Proof.
  revert s. induction n as [|n IH]; intros [|a s]; simpl; try done; lia.
Qed.

Lemma str_take_all n s : (String.length s <= n)%nat -> take n s = s.
Proof.
  revert s. induction n as [|n IH]; intros [|a s]; simpl; try done.
  - lia.
  - intros H. rewrite IH; [done | lia].
Qed.

Lemma str_take_app s t : take (String.length s) (s +:+ t) = s.
Proof. induction s as [|a s IH]; simpl; [by destruct t | by rewrite IH]. Qed.

Lemma str_drop_app s t : drop (String.length s) (s +:+ t) = t.
Proof. induction s as [|a s IH]; simpl; done. Qed.

Lemma str_drop_all n s : (String.length s <= n)%nat -> drop n s = EmptyString.
Proof.
  revert s. induction n as [|n IH]; intros [|a s]; simpl; try done.
  - lia.
  - intros H. apply IH. lia.
Qed.

Lemma str_take_drop n s : take n s +:+ drop n s = s.
Proof.
  revert s. induction n as [|n IH]; intros [|a s]; simpl; try done.
  by rewrite IH.
Qed.

(** [startsWith] and [search] find real occurrences. *)
Lemma startsWith_app p s :
  startsWith p s = true -> exists post, s = p +:+ post.
Proof.
  revert s. induction p as [|a p IH]; intros s H.
  - by exists s.
  - destruct s as [|b s]; simpl in H; [done |].
    apply andb_true_iff in H as [Hab Hp].
    apply ascii_eqb_eq in Hab as ->.
    destruct (IH _ Hp) as [post ->]. by exists post.
Qed.


Lemma occurs_tail p a s : occurs p s -> occurs p (String a s).
Proof. intros (pre & post & ->). by exists (String a pre), post. Qed.

(** In [payload ++ <FS><CR>] the first end marker is the appended one as
    soon as [payload] holds none of its own. *)
Lemma search_end_marker payload :
  ~ occurs FS_CR payload ->
  search FS_CR (payload +:+ FS_CR) = Some (String.length payload).
Proof.
  induction payload as [|a s IH]; intros Hno; [done |].
  assert (startsWith FS_CR (String a s +:+ FS_CR) = false) as Hhead.
  { apply not_true_is_false. intros H.
    simpl in H. apply andb_true_iff in H as [Ha H].
    apply ascii_eqb_eq in Ha. subst a.
    destruct s as [|b s]; simpl in H; [done |].
    apply andb_true_iff in H as [Hb _].
    apply ascii_eqb_eq in Hb. subst b.
    apply Hno. by exists EmptyString, s. }
  change (search FS_CR (String a s +:+ FS_CR))
    with (if startsWith FS_CR (String a s +:+ FS_CR) then Some O
          else S <$> search FS_CR (s +:+ FS_CR)).
  rewrite Hhead, IH; [done |].
  intros H. apply Hno. by apply occurs_tail.
Qed.

End StringFacts.

(* ===================================================================== *)
(** ** The frame loop *)
(* ===================================================================== *)

Section Framing.
Import JsString Hl7 Wire.

Lemma clamp_le s i : (clamp s i <= String.length s)%nat.
Proof. unfold clamp, len. lia. Qed.

Lemma clamp_inside s i :
  (0 <= i <= len s)%Z -> clamp s i = Z.to_nat i.
Proof. unfold clamp, len. lia. Qed.

Lemma clamp_pos s i :
  (0 < i)%Z -> (0 < String.length s)%nat -> (0 < clamp s i)%nat.
Proof. unfold clamp, len. lia. Qed.

Lemma substringFrom_drop s a : substringFrom s a = drop (clamp s a) s.
Proof.
  unfold substringFrom, substring.
  pose proof (clamp_le s a) as Ha.
  assert (clamp s (len s) = String.length s) as ->
    by (unfold clamp, len; lia).
  rewrite Nat.min_l, Nat.max_r by lia.
  apply str_take_all. rewrite str_length_drop. lia.
Qed.

Lemma frame_ready_empty : frame_ready EmptyString = false.
Proof. reflexivity. Qed.

(** A turn of the loop removes at least one code unit. *)
Lemma turn_shortens b :
  frame_ready b = true ->
  (String.length (substringFrom b (fsIndex b + 2)) < String.length b)%nat.
Proof.
  intros H. rewrite substringFrom_drop, str_length_drop.
  assert (0 < String.length b)%nat as Hlen.
  { destruct b; [by rewrite frame_ready_empty in H | simpl; lia]. }
  unfold frame_ready in H. apply andb_true_iff in H as [H1 H2].
  apply Z.leb_le in H1. apply Z.ltb_lt in H2.
  pose proof (clamp_pos b (fsIndex b + 2)). lia.
Qed.

Section Loop.
Context {A : Type} (handle : string -> A -> A).

(** Fuel beyond the length of the buffer is never used. *)
Lemma frames_fuel n b a :
  (String.length b <= n)%nat ->
  frames handle (S n) b a = frames handle n b a.
Proof.
  revert b a. induction n as [|n IH]; intros b a Hn.
  - destruct b; [done | simpl in Hn; lia].
  - change (frames handle (S (S n)) b a)
      with (if frame_ready b
            then frames handle (S n)
                   (substringFrom b (fsIndex b + 2))
                   (handle (substring b (vtIndex b + 1) (fsIndex b)) a)
            else (b, a)).
    change (frames handle (S n) b a)
      with (if frame_ready b
            then frames handle n
                   (substringFrom b (fsIndex b + 2))
                   (handle (substring b (vtIndex b + 1) (fsIndex b)) a)
            else (b, a)).
    destruct (frame_ready b) eqn:E; [|done].
    apply IH. pose proof (turn_shortens b E). lia.
Qed.

Lemma frames_enough n b a :
  (String.length b <= n)%nat ->
  frames handle n b a = frames handle (String.length b) b a.
Proof.
  intros H. induction H as [|n H IH]; [done |].
  by rewrite frames_fuel.
Qed.

(** The loop is left only when its condition is false. *)
Lemma frames_exit n b a :
  (String.length b <= n)%nat ->
  frame_ready (fst (frames handle n b a)) = false.
Proof.
  revert b a. induction n as [|n IH]; intros b a Hn.
  - destruct b; [done | simpl in Hn; lia].
  - simpl. destruct (frame_ready b) eqn:E; [|done].
    apply IH. pose proof (turn_shortens b E). lia.
Qed.

Lemma frames_no_frame n b a :
  frame_ready b = false -> frames handle n b a = (b, a).
Proof. intros H. destruct n; simpl; [done | by rewrite H]. Qed.

End Loop.

(** The listener returns with the loop condition false: its fuel never
    cuts the loop short. *)
Lemma onData_complete o c data :
  frame_ready (fst (onData o c data)) = false.
Proof. unfold onData. by apply frames_exit. Qed.

Lemma length_wrap payload :
  String.length (wrap payload) = S (String.length payload + 2).
Proof. unfold wrap. simpl. by rewrite str_length_app. Qed.

Lemma vtIndex_wrap payload : vtIndex (wrap payload) = 0%Z.
Proof.
  unfold vtIndex, indexOf. rewrite clamp_inside by (unfold len; lia).
  reflexivity.
Qed.

Lemma fsIndex_wrap payload :
  ~ occurs FS_CR payload ->
  fsIndex (wrap payload) = Z.of_nat (S (String.length payload)).
Proof.
  intros Hno. unfold fsIndex. rewrite vtIndex_wrap.
  unfold indexOf. rewrite clamp_inside by (unfold len; lia).
  change (drop (Z.to_nat 0) (wrap payload)) with (wrap payload).
  unfold wrap.
  change (search FS_CR (String VT (payload +:+ FS_CR)))
    with (S <$> search FS_CR (payload +:+ FS_CR)).
  by rewrite search_end_marker.
Qed.

(** One whole frame in the buffer: the loop body runs once, on the
    payload, and the buffer is left empty. *)
Lemma frames_wrap {A : Type} (handle : string -> A -> A) payload a :
  ~ occurs FS_CR payload ->
  frames handle (String.length (wrap payload)) (wrap payload) a
  = (EmptyString, handle payload a).
Proof.
  intros Hno. rewrite length_wrap.
  set (n := String.length payload).
  assert (frame_ready (wrap payload) = true) as Hready.
  { unfold frame_ready. rewrite fsIndex_wrap, vtIndex_wrap by done.
    apply andb_true_iff. split; [by apply Z.leb_le | apply Z.ltb_lt; lia]. }
  assert (substring (wrap payload) (vtIndex (wrap payload) + 1)
            (fsIndex (wrap payload)) = payload) as Hmsg.
  { rewrite fsIndex_wrap, vtIndex_wrap by done.
    unfold substring.
    rewrite !clamp_inside by (unfold len; rewrite length_wrap; lia).
    replace (Z.to_nat (0 + 1)) with 1%nat by lia.
    rewrite Nat2Z.id, Nat.min_l, Nat.max_r by lia.
    replace (S (String.length payload) - 1)%nat
      with (String.length payload) by lia.
    unfold wrap. simpl drop. apply str_take_app. }
  assert (substringFrom (wrap payload) (fsIndex (wrap payload) + 2)
          = EmptyString) as Hrest.
  { rewrite substringFrom_drop. apply str_drop_all.
    rewrite fsIndex_wrap by done.
    rewrite clamp_inside by (unfold len; rewrite length_wrap; lia).
    rewrite length_wrap. lia. }
  change (frames handle (S (n + 2)) (wrap payload) a)
    with (if frame_ready (wrap payload)
          then frames handle (n + 2)
                 (substringFrom (wrap payload) (fsIndex (wrap payload) + 2))
                 (handle (substring (wrap payload)
                            (vtIndex (wrap payload) + 1)
                            (fsIndex (wrap payload))) a)
          else (wrap payload, a)).
  rewrite Hready, Hmsg, Hrest.
  by apply frames_no_frame.
Qed.


End Framing.

(* ===================================================================== *)
(** ** Reading an ACK off the wire *)
(* ===================================================================== *)

Section AckFacts.
Import JsString Sqlite Hl7 Wire Scenario.

Lemma includes_app_r c x y :
  includes c y = true -> includes c (x +:+ y) = true.
Proof.
  intros H. induction x as [|a x IH]; simpl; [done |].
  rewrite IH. apply orb_true_r.
Qed.

Lemma last_segment_tail x y :
  includes CR y = false -> last_segment (x +:+ String CR y) = y.
Proof.
  intros H. induction x as [|a x IH].
  - change (last_segment (EmptyString +:+ String CR y))
      with (if includes CR y then last_segment y
            else if ascii_eqb CR CR then y else String CR y).
    by rewrite H.
  - change (last_segment (String a x +:+ String CR y))
      with (if includes CR (x +:+ String CR y)
            then last_segment (x +:+ String CR y)
            else if ascii_eqb a CR then x +:+ String CR y
                 else String a (x +:+ String CR y)).
    rewrite includes_app_r; [done |].
    change (includes CR (String CR y))
      with (ascii_eqb CR CR || includes CR y).
    done.
Qed.

Lemma strip_end_length y y' :
  strip_end y = Some y' -> (2 <= String.length y)%nat.
Proof.
  revert y'. induction y as [|a y IH]; intros y'; [done |].
  simpl. destruct (eqb (String a y) FS_CR) eqn:E.
  - apply bool_decide_eq_true in E. injection E as _ ->. simpl. lia.
  - destruct (strip_end y) as [z|] eqn:Ez; [|done].
    intros _. specialize (IH z eq_refl). lia.
Qed.

Lemma strip_end_app x y y' :
  strip_end y = Some y' -> strip_end (x +:+ y) = Some (x +:+ y').
Proof.
  intros H. induction x as [|a x IH]; [done |].
  simpl. rewrite IH.
  assert (eqb (String a (x +:+ y)) FS_CR = false) as ->; [|done].
  apply bool_decide_eq_false. intros E.
  apply (f_equal String.length) in E. simpl in E.
  rewrite str_length_app in E.
  pose proof (strip_end_length _ _ H). lia.
Qed.

(** The MSA segment of every ACK built by [sendAck] without a message
    identifier: the code chosen by the flag, and the default identifier
    of the signature. *)
Lemma msa_sendAck r (success : bool) :
  msa (sendAck r (Some success) None)
  = Some ["MSA"; ackCode success; "MSG"].
Proof.
  unfold msa, sendAck, unwrap. rewrite ascii_eqb_refl.
  destruct success.
  - rewrite (strip_end_app (ackHeader r) _ (String CR "MSA|AA|MSG"))
      by reflexivity.
    change (Some (split "|" (last_segment
              (ackHeader r +:+ String CR "MSA|AA|MSG")))
            = Some ["MSA"; "AA"; "MSG"]).
    by rewrite last_segment_tail.
  - rewrite (strip_end_app (ackHeader r) _ (String CR "MSA|AE|MSG"))
      by reflexivity.
    change (Some (split "|" (last_segment
              (ackHeader r +:+ String CR "MSA|AE|MSG")))
            = Some ["MSA"; "AE"; "MSG"]).
    by rewrite last_segment_tail.
Qed.

(** The one place where the flag of [processHL7Message] is decided: the
    search for a segment that starts with [MSH|]. *)
Lemma process_flag m :
  fst (processHL7Message m)
  = bool_decide (is_Some (find (startsWith "MSH|") (segments_of m))).
Proof.
  unfold processHL7Message, processHL7MessageManual.
  destruct (find (startsWith "MSH|") (segments_of m)) as [msh|].
  - rewrite bool_decide_eq_true_2 by eauto.
    generalize (handleADTPatientManual (segments_of m)),
               (handleORMOrderManual (segments_of m)).
    intros adt orm.
    destruct (if includes "^" (at_or_empty (split "|" msh) 8)
              then _ else _) as [ty tr].
    destruct (is_str ty "ADT" && _); [done |].
    by destruct (is_str ty "ORM" && _).
  - rewrite bool_decide_eq_false_2; [done |].
    by intros [? ?].
Qed.

Lemma serve_socket o m s :
  socket (serve o m s)
  = socket s ++ [sendAck (clock o (readings s))
                         (Some (fst (processHL7Message m))) None].
Proof. unfold serve. by destruct (processHL7Message m). Qed.

Lemma serve_handed o m s :
  handed (serve o m s) = handed s ++ [job_of m].
Proof. unfold serve, job_of. by destruct (processHL7Message m). Qed.

Lemma ack_of_serve o m s :
  ack_of o m s
  = Some ["MSA"; ackCode (fst (processHL7Message m)); "MSG"].
Proof.
  unfold ack_of. rewrite serve_socket, last_snoc.
  exact (msa_sendAck _ _).
Qed.

(** A segment that starts with [MSH|] is called MSH. *)
Lemma startsWith_MSH_name seg :
  startsWith "MSH|" seg = true -> segment_name seg = "MSH".
Proof.
  intros H. destruct (startsWith_app _ _ H) as [post ->].
  unfold segment_name. simpl.
  by destruct (split "|" post).
Qed.

Lemma find_none_no_MSH (segs : list string) :
  Forall (fun seg => segment_name seg <> "MSH") segs ->
  find (startsWith "MSH|") segs = None.
Proof.
  induction 1 as [|seg segs Hseg _ IH]; [done |].
  unfold find in *.
  change (List.find (startsWith "MSH|") (seg :: segs))
    with (if startsWith "MSH|" seg then Some seg
          else List.find (startsWith "MSH|") segs).
  destruct (startsWith "MSH|" seg) eqn:E; [|done].
  by apply startsWith_MSH_name in E.
Qed.

(** The listener only ever writes to the socket. *)
Lemma frames_serve_writes o n b s :
  Forall is_write (socket s) ->
  Forall is_write (socket (snd (frames (serve o) n b s))).
Proof.
  revert b s. induction n as [|n IH]; intros b s H; [done |].
  simpl. destruct (frame_ready b); [|done].
  apply IH. rewrite serve_socket. apply Forall_app. split; [done |].
  by repeat constructor.
Qed.

End AckFacts.

(* ===================================================================== *)
(** ** Acknowledgments *)
(* ===================================================================== *)

Section Acknowledgments.
Import JsString Sqlite Hl7 Wire Scenario.

Lemma ack_code_serve o m s :
  ack_code o m s = Some (ackCode (fst (processHL7Message m))).
Proof. unfold ack_code. by rewrite ack_of_serve. Qed.

Lemma ack_reference_serve o m s : ack_reference o m s = Some "MSG".
Proof. unfold ack_reference. by rewrite ack_of_serve. Qed.

Lemma search_none_not_occurs p s : search p s = None -> ~ occurs p s.
Proof.
  intros Hnone (pre & post & ->). revert Hnone.
  induction pre as [|a pre IH].
  - assert (startsWith p (p +:+ post) = true) as Hp.
    { clear. induction p as [|b p IHp]; [done |].
      simpl. by rewrite ascii_eqb_refl, IHp. }
    destruct (p +:+ post) eqn:E; simpl; by rewrite Hp.
  - change (search p (String a pre +:+ p +:+ post))
      with (if startsWith p (String a (pre +:+ p +:+ post)) then Some O
            else S <$> search p (pre +:+ p +:+ post)).
    destruct (startsWith p _); [done |].
    destruct (search p (pre +:+ p +:+ post)); [done |].
    intros _. by apply IH.
Qed.

Lemma exec_trace_grows o j e :
  exists evs, trace (exec o j e) = trace e ++ evs.
Proof.
  revert e. induction j as [|st cb IH|q cb IH|k IH]; intros e; simpl.
  - exists []. by rewrite app_nil_r.
  - destruct (run _ st (db e)) as [err s'].
    destruct (IH err (Engine s' (S (statements e)) (uuids e)
                             (trace e ++ [Ran st err]))) as [evs ->].
    simpl. rewrite <- app_assoc. eauto.
  - destruct (get _ q (db e)) as [err row].
    destruct (IH err row (Engine (db e) (S (statements e)) (uuids e)
                                 (trace e ++ [Got q err row]))) as [evs ->].
    simpl. rewrite <- app_assoc. eauto.
  - destruct (IH (uuid_v4 o (uuids e))
                 (Engine (db e) (statements e) (S (uuids e)) (trace e)))
      as [evs ->].
    simpl. eauto.
Qed.

Lemma issued_idle o e : issued o Idle e = [].
Proof. unfold issued. simpl. apply skipn_all. Qed.

(** A message without a segment starting with [MSH|] hands nothing to
    the database. *)
Lemma job_of_headless m :
  find (startsWith "MSH|") (segments_of m) = None -> job_of m = Idle.
Proof.
  intros H. unfold job_of, processHL7Message, processHL7MessageManual.
  by rewrite H.
Qed.

(** C1, evaluated on the code.  Whatever the message, the MSA segment of
    the ACK names the default identifier [MSG] of [sendAck]: the listener
    calls [sendAck(socket, success)] without the control ID.  For the
    frame of the end-to-end scenario, whose MSH-10 is [MSG001], the
    connection writes one ACK and it references [MSG]. *)
Theorem ack_references_placeholder :
  (forall o m s, ack_reference o m s = Some "MSG")
  /\ controlId adt_a01 = Some "MSG001"
  /\ snd (onData calm accepted (wrap adt_a01))
     = serve calm adt_a01 (snd accepted)
  /\ (msa <$> socket (serve calm adt_a01 (snd accepted)))
     = [Some ["MSA"; "AA"; "MSG"]].
Proof.
  split; [apply ack_reference_serve |].
  split; [reflexivity |].
  split; [by vm_compute | by vm_compute].
Qed.

(** C5.  A message whose header carries [ADT^A01] and whose PID-3 is
    fourteen digits is answered with code AA; a message none of whose
    segments is called MSH is answered with code AE; and the code is a
    function of the message alone: neither the clock, the storage, nor
    what the connection did before changes it. *)
Theorem ack_code_correct :
  (forall o m s msh id,
      find (startsWith "MSH|") (segments_of m) = Some msh ->
      at_or_empty (split "|" msh) 8 = "ADT^A01" ->
      pid3 m = Some id ->
      fourteen_digits id = true ->
      ack_code o m s = Some "AA")
  /\ (forall o m s,
      Forall (fun seg => segment_name seg <> "MSH") (segments_of m) ->
      ack_code o m s = Some "AE")
  /\ (forall o o' m s s', ack_code o m s = ack_code o' m s').
Proof.
  split; [| split].
  - intros o m s msh id Hmsh _ _ _.
    rewrite ack_code_serve, process_flag, Hmsh.
    by rewrite bool_decide_eq_true_2 by eauto.
  - intros o m s Hno.
    rewrite ack_code_serve, process_flag, find_none_no_MSH by done.
    rewrite bool_decide_eq_false_2; [done |]. by intros [? ?].
  - intros. by rewrite !ack_code_serve.
Qed.

Lemma ack_code_correct_witness :
  ack_code calm adt_a01 (snd accepted) = Some "AA"
  /\ ack_code calm headless (snd accepted) = Some "AE".
Proof.
  destruct ack_code_correct as (Hadt & Hnone & _). split.
  - apply (Hadt calm adt_a01 (snd accepted)
             "MSH|^~\&|S|F|RAD|F|20251005120000||ADT^A01|MSG001|P|2.5"
             "26409301400274"); reflexivity.
  - apply (Hnone calm headless (snd accepted)).
    repeat constructor. by vm_compute.
Defined.

(** C4, refuted on the code: every statement of the ADT^A01 message
    fails with an I/O error, and the ACK still carries AA, not AE. *)
Lemma storage_failure_still_accepted :
  trace (exec failing (job_of adt_a01) (boot empty_store))
  = [Ran (InsertOrReplacePatient "26409301400274" "N/A" "MOHAMED AHMED"
            "19900101" (Some "male") EmptyString)
         (Some "SQLITE_IOERR: disk I/O error")]
  /\ ack_code failing adt_a01 (snd accepted) = Some "AA"
  /\ ack_code failing adt_a01 (snd accepted) <> Some "AE".
Proof. split; [reflexivity | split; [by vm_compute | by vm_compute]]. Qed.

(** C4, amended.  When a statement issued for a message fails with a
    storage error, the ACK written for that message carries AA: the
    error only reaches the statement's callback, and the flag passed to
    [sendAck] was fixed before.  The listener makes no call on the socket
    other than [write], so the connection stays open. *)
Theorem ack_ignores_storage_errors o m s e :
  existsb failed (issued o (job_of m) e) = true ->
  ack_code o m s = Some "AA"
  /\ forall c data,
       Forall is_write (socket (snd c)) ->
       Forall is_write (socket (snd (onData o c data))).
Proof.
  intros Hfail. split.
  - rewrite ack_code_serve, process_flag.
    destruct (find (startsWith "MSH|") (segments_of m)) as [msh|] eqn:E.
    + by rewrite bool_decide_eq_true_2 by eauto.
    + by rewrite (job_of_headless m E), issued_idle in Hfail.
  - intros c data Hc. unfold onData. by apply frames_serve_writes.
Qed.

Lemma ack_ignores_storage_errors_witness :
  ack_code failing adt_a01 (snd accepted) = Some "AA"
  /\ forall c data,
       Forall is_write (socket (snd c)) ->
       Forall is_write (socket (snd (onData failing c data))).
Proof.
  apply (ack_ignores_storage_errors failing adt_a01 (snd accepted)
           (boot empty_store)).
  reflexivity.
Defined.

End Acknowledgments.

(* ===================================================================== *)
(** ** The handlers and the database *)
(* ===================================================================== *)

Section Handlers.
Import JsString Sqlite Hl7 Wire Scenario.

Lemma handleADT_job segments pid :
  find (startsWith "PID|") segments = Some pid ->
  invalid_ssn (ssn_of pid) = false ->
  handleADTPatientManual segments
  = Run (InsertOrReplacePatient
           (ssn_of pid) "N/A"
           (fullNameOf (at_or_empty (split "|" pid) 5))
           (at_or_empty (split "|" pid) 7)
           (mapGender (at_or_empty (split "|" pid) 8))
           (at_or_empty (split "|" pid) 11))
        (fun _ => Idle).
Proof.
  intros Hpid Hssn. unfold handleADTPatientManual. rewrite Hpid.
  unfold ssn_of in Hssn. by rewrite Hssn.
Qed.

Lemma handleADT_idle_or_run segments :
  handleADTPatientManual segments = Idle
  \/ exists i n d g a,
       handleADTPatientManual segments
       = Run (InsertOrReplacePatient i "N/A" n d g a) (fun _ => Idle).
Proof.
  unfold handleADTPatientManual.
  destruct (find (startsWith "PID|") segments) as [pid|]; [|by left].
  destruct (invalid_ssn _); [by left |].
  right. by eexists _, _, _, _, _.
Qed.

Lemma handleORM_job segments pid obr :
  find (startsWith "PID|") segments = Some pid ->
  find (startsWith "OBR|") segments = Some obr ->
  invalid_ssn (ssn_of pid) = false ->
  handleORMOrderManual segments
  = Get (SelectOpenVisit (ssn_of pid))
        (check_callback (ssn_of pid) (reason_of obr)).
Proof.
  intros Hpid Hobr Hssn. unfold handleORMOrderManual.
  rewrite Hpid, Hobr.
  unfold ssn_of in Hssn. by rewrite Hssn.
Qed.

Lemma issued_snoc o j e evs :
  trace (exec o j e) = trace e ++ evs -> issued o j e = evs.
Proof.
  intros H. unfold issued. rewrite H.
  by rewrite drop_app_length.
Qed.

Lemma open_visit_of_spec i v :
  open_visit_of i v = true
  <-> patient_ssn v = i
      /\ (visit_status v = "open" \/ visit_status v = "in_progress")
      /\ created_by v = "hl7-system".
Proof.
  unfold open_visit_of, eqb.
  rewrite !andb_true_iff, orb_true_iff, !bool_decide_eq_true.
  tauto.
Qed.

Lemma split_no_separator c s : includes c s = false -> split c s = [s].
Proof.
  induction s as [|a s IH]; simpl; [done |].
  intros H. apply orb_false_iff in H as [Ha Hs].
  by rewrite Ha, IH.
Qed.

Lemma split_at_separator c x y :
  includes c x = false -> split c (x +:+ String c y) = x :: split c y.
Proof.
  induction x as [|a x IH]; simpl.
  - by rewrite ascii_eqb_refl.
  - intros H. apply orb_false_iff in H as [Ha Hx].
    by rewrite Ha, IH.
Qed.

Lemma fullNameOf_family_given family given :
  includes "^" family = false ->
  includes "^" given = false ->
  fullNameOf (family +:+ "^" +:+ given) = trim (given +:+ " " +:+ family).
Proof.
  intros Hf Hg. unfold fullNameOf.
  rewrite includes_app_r by reflexivity.
  change ("^" +:+ given) with (String "^" given).
  by rewrite split_at_separator, split_no_separator.
Qed.

(** C2, evaluated on the code.  PID-3 of [adt_letter_id] is fourteen
    characters long and ends in a letter; it does not match the
    fourteen-digit pattern, and the handler writes the patient row all
    the same: its guard compares the length only. *)
Theorem letter_identifier_is_written :
  pid3 adt_letter_id = Some "2640930140027X"
  /\ fourteen_digits "2640930140027X" = false
  /\ issued calm (job_of adt_letter_id) (boot empty_store)
     = [Ran (InsertOrReplacePatient "2640930140027X" "N/A" "MOHAMED AHMED"
               "19900101" (Some "male") EmptyString) None]
  /\ patients (db (exec calm (job_of adt_letter_id) (boot empty_store)))
       !! "2640930140027X"
     = Some (Patient "2640930140027X" "N/A" "MOHAMED AHMED" "19900101"
                     (Some "male") EmptyString).
Proof. repeat split; by vm_compute. Qed.

(** C6, refuted on the code: for PID-5 [AHMED^MOHAMED] the stored name
    is not "AHMED MOHAMED". *)
Lemma display_name_is_not_family_first :
  full_name <$>
    (patients (db (exec calm (job_of adt_a01) (boot empty_store)))
       !! "26409301400274")
  <> Some "AHMED MOHAMED".
Proof. by vm_compute. Qed.

(** C6, amended.  For a PID-5 of the form Family^Given the display name
    is the given component, one space, the family component, trimmed
    (First Last), and that is the name the handler binds to [full_name].
    For the message of the end-to-end scenario the patient is upserted
    with identifier 26409301400274, name "MOHAMED AHMED", sex male and
    date of birth 19900101, and the ACK carries AA. *)
Theorem display_name_is_given_first :
  (forall segments pid family given,
      find (startsWith "PID|") segments = Some pid ->
      invalid_ssn (ssn_of pid) = false ->
      at_or_empty (split "|" pid) 5 = family +:+ "^" +:+ given ->
      includes "^" family = false ->
      includes "^" given = false ->
      exists d g a,
        handleADTPatientManual segments
        = Run (InsertOrReplacePatient (ssn_of pid) "N/A"
                 (trim (given +:+ " " +:+ family)) d g a)
              (fun _ => Idle))
  /\ patients (db (exec calm (job_of adt_a01) (boot empty_store)))
       !! "26409301400274"
     = Some (Patient "26409301400274" "N/A" "MOHAMED AHMED" "19900101"
                     (Some "male") EmptyString)
  /\ ack_code calm adt_a01 (snd accepted) = Some "AA".
Proof.
  split; [| split; by vm_compute].
  intros segments pid family given Hpid Hssn Hname Hf Hg.
  rewrite (handleADT_job _ _ Hpid Hssn), Hname.
  rewrite fullNameOf_family_given by done. by eexists _, _, _.
Qed.

Lemma display_name_is_given_first_witness :
  exists d g a,
    handleADTPatientManual (segments_of adt_a01)
    = Run (InsertOrReplacePatient "26409301400274" "N/A"
             (trim ("MOHAMED" +:+ " " +:+ "AHMED")) d g a)
          (fun _ => Idle).
Proof.
  destruct display_name_is_given_first as [Hname _].
  apply (Hname (segments_of adt_a01)
           "PID|1||26409301400274||AHMED^MOHAMED||19900101|M"
           "AHMED" "MOHAMED"); reflexivity.
Defined.

Lemma upper_is_M a : upper a = "M"%char -> a = "M"%char \/ a = "m"%char.
Proof.
  destruct a as [[] [] [] [] [] [] [] []]; vm_compute; intros H;
    try discriminate H; auto.
Qed.

Lemma upper_is_F a : upper a = "F"%char -> a = "F"%char \/ a = "f"%char.
Proof.
  destruct a as [[] [] [] [] [] [] [] []]; vm_compute; intros H;
    try discriminate H; auto.
Qed.

Lemma toUpperCase_single s c :
  toUpperCase s = String c EmptyString ->
  exists a, s = String a EmptyString /\ upper a = c.
Proof.
  destruct s as [|a [|b s]]; simpl; intros H; try discriminate H.
  injection H as H. eauto.
Qed.

(** C7, refuted on the code: the empty code is mapped to [null], not to
    other. *)
Lemma empty_sex_code_is_null : mapGender EmptyString <> Some "other".
Proof. by vm_compute. Qed.

(** C7, amended.  [mapGender] takes M and m to male, F and f to female,
    the empty string to [null], and every other string (O, U and any
    unrecognized code among them) to other. *)
Theorem mapGender_table :
  (forall s, s = "M" \/ s = "m" -> mapGender s = Some "male")
  /\ (forall s, s = "F" \/ s = "f" -> mapGender s = Some "female")
  /\ mapGender EmptyString = None
  /\ (forall s, s <> EmptyString ->
                s <> "M" -> s <> "m" -> s <> "F" -> s <> "f" ->
                mapGender s = Some "other").
Proof.
  repeat split.
  - by intros s [-> | ->].
  - by intros s [-> | ->].
  - intros s Hne HM Hm HF Hf. unfold mapGender.
    assert (truthy s = true) as -> by (by destruct s).
    simpl negb. cbv iota.
    destruct (eqb (toUpperCase s) "M") eqn:EM.
    { apply bool_decide_eq_true in EM.
      apply toUpperCase_single in EM as (a & -> & Ha).
      by apply upper_is_M in Ha as [-> | ->]. }
    destruct (eqb (toUpperCase s) "F") eqn:EF; [|done].
    apply bool_decide_eq_true in EF.
    apply toUpperCase_single in EF as (a & -> & Ha).
    by apply upper_is_F in Ha as [-> | ->].
Qed.

Lemma mapGender_table_witness :
  mapGender "M" = Some "male" /\ mapGender "f" = Some "female"
  /\ mapGender "O" = Some "other" /\ mapGender "U" = Some "other"
  /\ mapGender "X9" = Some "other".
Proof.
  destruct mapGender_table as (Hm & Hf & _ & Hother).
  split; [| split; [| split; [| split]]].
  - apply Hm. by left.
  - apply Hf. by right.
  - by apply Hother.
  - by apply Hother.
  - by apply Hother.
Defined.

(** C9.  Every patient row that the Patient-Admit handler writes or
    overwrites has [mobile_number] equal to 'N/A'; when the row of the
    patient exists already and the statement succeeds, the mobile number
    stored before is replaced by 'N/A'. *)
Theorem admit_resets_mobile_number segments o e :
  (forall k p,
      patients (db (exec o (handleADTPatientManual segments) e)) !! k
      = Some p ->
      patients (db e) !! k = Some p \/ mobile_number p = "N/A")
  /\ (forall pid old,
        find (startsWith "PID|") segments = Some pid ->
        invalid_ssn (ssn_of pid) = false ->
        storage_error o (statements e) = None ->
        patients (db e) !! ssn_of pid = Some old ->
        mobile_number <$>
          (patients (db (exec o (handleADTPatientManual segments) e))
             !! ssn_of pid)
        = Some "N/A").
Proof.
  split.
  - intros k p.
    destruct (handleADT_idle_or_run segments)
      as [-> | (i & n & d & g & a & ->)]; [by left |].
    simpl. destruct (storage_error o (statements e)); simpl; [by left |].
    destruct (decide (i = k)) as [-> | Hne].
    + rewrite lookup_insert_eq. intros [= <-]. by right.
    + rewrite lookup_insert_ne by done. by left.
  - intros pid old Hpid Hssn Hok _.
    rewrite (handleADT_job _ _ Hpid Hssn). simpl. rewrite Hok. simpl.
    by rewrite lookup_insert_eq.
Qed.

Lemma admit_resets_mobile_number_witness :
  mobile_number <$> (patients known_patient !! "26409301400274")
  = Some "01001234567"
  /\ mobile_number <$>
       (patients (db (exec calm (handleADTPatientManual
                                   (segments_of adt_a01))
                           (boot known_patient)))
          !! "26409301400274")
     = Some "N/A".
Proof.
  split; [by vm_compute |].
  destruct (admit_resets_mobile_number (segments_of adt_a01) calm
              (boot known_patient)) as [_ Hold].
  apply (Hold "PID|1||26409301400274||AHMED^MOHAMED||19900101|M"
              (Patient "26409301400274" "01001234567" "Ahmed M."
                       "1990-01-01" (Some "male") "Cairo"));
    by vm_compute.
Defined.

(** The order handler once the duplicate check has failed or found
    nothing: one identifier is drawn and the INSERT is issued. *)
Lemma exec_check_passes o e i reason err :
  (is_Some err \/
   List.find (open_visit_of i) (patient_visits (db e)) = None) ->
  storage_error o (statements e) = err ->
  let ins := InsertVisit (uuid_v4 o (uuids e)) i reason in
  let outcome := run (storage_error o (S (statements e))) ins (db e) in
  let row := match err with
             | Some _ => None
             | None => visit_id <$> List.find (open_visit_of i)
                                              (patient_visits (db e))
             end in
  exec o (Get (SelectOpenVisit i) (check_callback i reason)) e
  = Engine (snd outcome) (S (S (statements e))) (S (uuids e))
           (trace e ++ [Got (SelectOpenVisit i) err row;
                        Ran ins (fst outcome)]).
Proof.
  intros Hpass Herr ins outcome row. subst row outcome ins.
  cbn [exec]. rewrite Herr.
  destruct err as [msg|].
  - cbn [get]. unfold check_callback.
    rewrite (bool_decide_eq_true_2 (is_Some (Some msg))) by eauto.
    cbn [negb andb exec db statements uuids trace].
    destruct (run _ _ (db e)) as [err' s'].
    cbn [fst snd]. by rewrite <- app_assoc.
  - destruct Hpass as [[? [=]] | Hnone].
    cbn [get]. rewrite Hnone.
    cbn [fmap option_fmap option_map]. unfold check_callback.
    rewrite (bool_decide_eq_false_2 (is_Some None)) by (by intros [? ?]).
    cbn [negb andb exec db statements uuids trace].
    destruct (run _ _ (db e)) as [err' s'].
    cbn [fst snd]. by rewrite <- app_assoc.
Qed.

(** The order handler when the check succeeds and finds a row. *)
Lemma exec_check_finds o e i reason v :
  storage_error o (statements e) = None ->
  List.find (open_visit_of i) (patient_visits (db e)) = Some v ->
  exec o (Get (SelectOpenVisit i) (check_callback i reason)) e
  = Engine (db e) (S (statements e)) (uuids e)
           (trace e ++ [Got (SelectOpenVisit i) None (Some (visit_id v))]).
Proof.
  intros Hok Hfound. cbn [exec]. rewrite Hok.
  cbn [get]. rewrite Hfound.
  cbn [fmap option_fmap option_map]. unfold check_callback.
  rewrite (bool_decide_eq_false_2 (is_Some None)) by (by intros [? ?]).
  by rewrite bool_decide_eq_true_2 by eauto.
Qed.

(** C10.  When the duplicate-check query itself fails, the Order handler
    goes on: it draws a new visit identifier and issues the INSERT, and
    what it leaves in the database is what it leaves when the check
    succeeds and finds no open visit. *)
Theorem failed_check_still_inserts segments o e pid obr err :
  find (startsWith "PID|") segments = Some pid ->
  find (startsWith "OBR|") segments = Some obr ->
  invalid_ssn (ssn_of pid) = false ->
  storage_error o (statements e) = Some err ->
  let ins := InsertVisit (uuid_v4 o (uuids e)) (ssn_of pid) (reason_of obr) in
  let outcome := run (storage_error o (S (statements e))) ins (db e) in
  issued o (handleORMOrderManual segments) e
  = [Got (SelectOpenVisit (ssn_of pid)) (Some err) None;
     Ran ins (fst outcome)]
  /\ db (exec o (handleORMOrderManual segments) e) = snd outcome
  /\ forall o',
       storage_error o' (statements e) = None ->
       List.find (open_visit_of (ssn_of pid)) (patient_visits (db e))
       = None ->
       uuid_v4 o' (uuids e) = uuid_v4 o (uuids e) ->
       storage_error o' (S (statements e))
       = storage_error o (S (statements e)) ->
       issued o' (handleORMOrderManual segments) e
       = [Got (SelectOpenVisit (ssn_of pid)) None None;
          Ran ins (fst outcome)]
       /\ db (exec o' (handleORMOrderManual segments) e)
          = db (exec o (handleORMOrderManual segments) e).
Proof.
  intros Hpid Hobr Hssn Hfail ins outcome.
  rewrite (handleORM_job _ _ _ Hpid Hobr Hssn).
  pose proof (exec_check_passes o e (ssn_of pid) (reason_of obr) (Some err))
    as Hrun.
  cbv zeta in Hrun. specialize (Hrun ltac:(left; eauto) Hfail).
  split; [| split].
  - apply issued_snoc. by rewrite Hrun.
  - by rewrite Hrun.
  - intros o' Hok Hnone Hid Hnext.
    pose proof (exec_check_passes o' e (ssn_of pid) (reason_of obr) None)
      as Hrun'.
    cbv zeta in Hrun'. specialize (Hrun' ltac:(by right) Hok).
    rewrite Hnone, Hid, Hnext in Hrun'.
    split.
    + apply issued_snoc. by rewrite Hrun'.
    + by rewrite Hrun, Hrun'.
Qed.

Lemma failed_check_still_inserts_witness :
  issued failing_once (handleORMOrderManual (segments_of orm_o01))
         (boot empty_store)
  = [Got (SelectOpenVisit "26409301400275")
         (Some "SQLITE_BUSY: database is locked") None;
     Ran (InsertVisit "visit-0" "26409301400275" "CHEST X-RAY") None]
  /\ patient_visits
       (db (exec failing_once (handleORMOrderManual (segments_of orm_o01))
                 (boot empty_store)))
     = [Visit "visit-0" "26409301400275" "open" "CHEST X-RAY" "outpatient"
              "radiology" "hl7-system"].
Proof.
  destruct (failed_check_still_inserts (segments_of orm_o01) failing_once
              (boot empty_store)
              "PID|1||26409301400275||AHMED^MOHAMED||19900101|M"
              "OBR|1|ORDER001||RAD001^CHEST X-RAY^C4|||20251005120100|||||||||CHEST PAIN"
              "SQLITE_BUSY: database is locked"
              eq_refl eq_refl eq_refl eq_refl) as (Hissued & Hdb & _).
  split.
  - rewrite Hissued. by vm_compute.
  - rewrite Hdb. by vm_compute.
Defined.

(** C3, refuted on the code.  The store holds an open visit of the
    patient, created by the service for the reason FOLLOW-UP; the order
    asks for CHEST X-RAY.  No visit with that reason exists, and the
    handler creates none: the check finds the FOLLOW-UP visit and
    stops. *)
Lemma other_reason_suppresses_creation :
  reason_of <$> find (startsWith "OBR|") (segments_of orm_o01)
  = Some "CHEST X-RAY"
  /\ existsb (same_reason_visit "26409301400275" "CHEST X-RAY")
             (patient_visits open_follow_up) = false
  /\ issued calm (job_of orm_o01) (boot open_follow_up)
     = [Got (SelectOpenVisit "26409301400275") None (Some "visit-0")]
  /\ patient_visits (db (exec calm (job_of orm_o01) (boot open_follow_up)))
     = patient_visits open_follow_up.
Proof. repeat split; by vm_compute. Qed.

(** C3, amended.  For an ORM^O01 message that reaches the duplicate
    check (PID and OBR present, PID-3 of fourteen characters) and whose
    check query succeeds, no INSERT is issued exactly when the store
    holds a visit of the same patient with status open or in_progress
    and the provenance marker [hl7-system], whatever its reason: then
    the database is left as it was.  Otherwise one INSERT is issued,
    with a new identifier and the reason derived from the message. *)
Theorem duplicate_check_ignores_reason segments o e pid obr :
  find (startsWith "PID|") segments = Some pid ->
  find (startsWith "OBR|") segments = Some obr ->
  invalid_ssn (ssn_of pid) = false ->
  storage_error o (statements e) = None ->
  let ins := InsertVisit (uuid_v4 o (uuids e)) (ssn_of pid) (reason_of obr) in
  let outcome := run (storage_error o (S (statements e))) ins (db e) in
  let new := issued o (handleORMOrderManual segments) e in
  (existsb inserts_visit new = false
   <-> exists v, v ∈ patient_visits (db e)
                 /\ patient_ssn v = ssn_of pid
                 /\ (visit_status v = "open"
                     \/ visit_status v = "in_progress")
                 /\ created_by v = "hl7-system")
  /\ (existsb inserts_visit new = false ->
      db (exec o (handleORMOrderManual segments) e) = db e)
  /\ (existsb inserts_visit new = true ->
      new = [Got (SelectOpenVisit (ssn_of pid)) None None;
             Ran ins (fst outcome)]
      /\ db (exec o (handleORMOrderManual segments) e) = snd outcome).
Proof.
  intros Hpid Hobr Hssn Hok ins outcome new. subst new.
  rewrite (handleORM_job _ _ _ Hpid Hobr Hssn).
  destruct (List.find (open_visit_of (ssn_of pid)) (patient_visits (db e)))
    as [v|] eqn:Hfind.
  - pose proof (exec_check_finds o e (ssn_of pid) (reason_of obr) v
                  Hok Hfind) as Hrun.
    rewrite (issued_snoc _ _ _ _ (f_equal trace Hrun)), Hrun.
    apply find_some in Hfind as [Hin Hv].
    apply open_visit_of_spec in Hv.
    apply list_elem_of_In in Hin.
    split; [| split]; [| done | done].
    split; [intros _; by exists v | done].
  - pose proof (exec_check_passes o e (ssn_of pid) (reason_of obr) None)
      as Hrun.
    cbv zeta in Hrun. specialize (Hrun ltac:(by right) Hok).
    rewrite Hfind in Hrun.
    rewrite (issued_snoc _ _ _ _ (f_equal trace Hrun)), Hrun.
    split; [| split]; [| done | done].
    split; [done |].
    intros (v & Hin & Hv). exfalso.
    apply list_elem_of_In in Hin.
    apply (find_none _ _ Hfind) in Hin.
    apply open_visit_of_spec in Hv. congruence.
Qed.

Lemma duplicate_check_ignores_reason_witness :
  (exists v, v ∈ patient_visits open_follow_up
             /\ primary_diagnosis v = "FOLLOW-UP"
             /\ patient_ssn v = "26409301400275")
  /\ db (exec calm (handleORMOrderManual (segments_of orm_o01))
              (boot open_follow_up))
     = open_follow_up.
Proof.
  destruct (duplicate_check_ignores_reason (segments_of orm_o01) calm
              (boot open_follow_up)
              "PID|1||26409301400275||AHMED^MOHAMED||19900101|M"
              "OBR|1|ORDER001||RAD001^CHEST X-RAY^C4|||20251005120100|||||||||CHEST PAIN"
              eq_refl eq_refl eq_refl eq_refl) as (Hiff & Hsame & _).
  split.
  - destruct (proj1 Hiff) as (v & Hin & Hssn & _); [by vm_compute |].
    exists v. split; [done |]. split; [| by vm_compute in Hssn].
    apply list_elem_of_singleton in Hin. by subst v.
  - apply Hsame. by vm_compute.
Defined.


End Handlers.

(* ===================================================================== *)
(** ** More about the frame loop *)
(* ===================================================================== *)

Section Streams.
Import JsString Sqlite Hl7 Wire Scenario Client.

Lemma str_drop_app_plus k s t :
  drop (String.length s + k) (s +:+ t) = drop k t.
Proof. induction s as [|a s IH]; simpl; done. Qed.

Lemma search_marker_then payload rest :
  ~ occurs FS_CR payload ->
  search FS_CR (payload +:+ FS_CR +:+ rest) = Some (String.length payload).
Proof.
  induction payload as [|a s IH]; intros Hno; [done |].
  assert (startsWith FS_CR (String a s +:+ FS_CR +:+ rest) = false) as Hhead.
  { apply not_true_is_false. intros H.
    simpl in H. apply andb_true_iff in H as [Ha H].
    apply ascii_eqb_eq in Ha. subst a.
    destruct s as [|b s]; simpl in H; [done |].
    apply andb_true_iff in H as [Hb _].
    apply ascii_eqb_eq in Hb. subst b.
    apply Hno. by exists EmptyString, s. }
  change (search FS_CR (String a s +:+ FS_CR +:+ rest))
    with (if startsWith FS_CR (String a s +:+ FS_CR +:+ rest) then Some O
          else S <$> search FS_CR (s +:+ FS_CR +:+ rest)).
  rewrite Hhead, IH; [done |].
  intros H. apply Hno. by apply occurs_tail.
Qed.

Lemma search_start_byte junk x :
  ~ occurs VT_ junk ->
  search VT_ (junk +:+ String VT x) = Some (String.length junk).
Proof.
  induction junk as [|a s IH]; intros Hno; [done |].
  assert (startsWith VT_ (String a s +:+ String VT x) = false) as Hhead.
  { apply not_true_is_false. intros H.
    simpl in H. apply andb_true_iff in H as [Ha _].
    apply ascii_eqb_eq in Ha. subst a.
    apply Hno. by exists EmptyString, s. }
  change (search VT_ (String a s +:+ String VT x))
    with (if startsWith VT_ (String a s +:+ String VT x) then Some O
          else S <$> search VT_ (s +:+ String VT x)).
  rewrite Hhead, IH; [done |].
  intros H. apply Hno. by apply occurs_tail.
Qed.

Lemma length_framed junk payload rest :
  String.length (framed junk payload rest)
  = (String.length junk + S (String.length payload + (2 + String.length rest)))%nat.
Proof. unfold framed. rewrite str_length_app. simpl. by rewrite !str_length_app. Qed.

Lemma vtIndex_framed junk payload rest :
  ~ occurs VT_ junk ->
  vtIndex (framed junk payload rest) = Z.of_nat (String.length junk).
Proof.
  intros Hno. unfold vtIndex, indexOf.
  rewrite clamp_inside by (unfold len; lia).
  change (drop (Z.to_nat 0) (framed junk payload rest))
    with (framed junk payload rest).
  unfold framed. rewrite search_start_byte by done. f_equal.
Qed.

Lemma fsIndex_framed junk payload rest :
  ~ occurs VT_ junk -> ~ occurs FS_CR payload ->
  fsIndex (framed junk payload rest)
  = Z.of_nat (String.length junk + S (String.length payload)).
Proof.
  intros Hj Hp. unfold fsIndex. rewrite vtIndex_framed by done.
  unfold indexOf.
  rewrite clamp_inside by (unfold len; rewrite length_framed; lia).
  rewrite Nat2Z.id. unfold framed. rewrite str_drop_app.
  change (search FS_CR (String VT (payload +:+ FS_CR +:+ rest)))
    with (S <$> search FS_CR (payload +:+ FS_CR +:+ rest)).
  by rewrite search_marker_then.
Qed.

(** One turn of the loop on such a buffer: the bytes before the start
    byte are dropped, the payload goes to the body, the rest stays. *)
Lemma frames_turn {A : Type} (handle : string -> A -> A)
    n junk payload rest a :
  ~ occurs VT_ junk -> ~ occurs FS_CR payload ->
  frames handle (S n) (framed junk payload rest) a
  = frames handle n rest (handle payload a).
Proof.
  intros Hj Hp.
  set (b := framed junk payload rest).
  pose proof (length_framed junk payload rest) as Hlen. fold b in Hlen.
  assert (frame_ready b = true) as Hready.
  { unfold frame_ready, b. rewrite fsIndex_framed, vtIndex_framed by done.
    apply andb_true_iff. split; [apply Z.leb_le | apply Z.ltb_lt]; lia. }
  assert (substring b (vtIndex b + 1) (fsIndex b) = payload) as Hmsg.
  { unfold b at 2 3. rewrite fsIndex_framed, vtIndex_framed by done.
    unfold substring.
    rewrite !clamp_inside by (unfold len; lia).
    rewrite Nat.min_l, Nat.max_r by lia.
    replace (Z.to_nat (Z.of_nat (String.length junk) + 1))
      with (String.length junk + 1)%nat by lia.
    rewrite Nat2Z.id.
    replace (String.length junk + S (String.length payload)
             - (String.length junk + 1))%nat
      with (String.length payload) by lia.
    unfold b, framed. rewrite str_drop_app_plus. simpl drop.
    apply str_take_app. }
  assert (substringFrom b (fsIndex b + 2) = rest) as Hrest.
  { rewrite substringFrom_drop.
    unfold b at 2. rewrite fsIndex_framed by done.
    rewrite clamp_inside by (unfold len; lia).
    replace (Z.to_nat (Z.of_nat (String.length junk
                                 + S (String.length payload)) + 2))
      with (String.length junk + S (String.length payload + 2))%nat by lia.
    unfold b, framed. rewrite str_drop_app_plus. simpl drop.
    by rewrite str_drop_app_plus. }
  change (frames handle (S n) b a)
    with (if frame_ready b
          then frames handle n (substringFrom b (fsIndex b + 2))
                 (handle (substring b (vtIndex b + 1) (fsIndex b)) a)
          else (b, a)).
  by rewrite Hready, Hmsg, Hrest.
Qed.

Lemma stream_framed p ps :
  stream (p :: ps) = framed EmptyString p (stream ps).
Proof. unfold framed, wrap. simpl. by rewrite str_app_assoc. Qed.

Lemma no_start_byte_in_empty : ~ occurs VT_ EmptyString.
Proof. by apply search_none_not_occurs. Qed.

(** Frames written back to back, then bytes that hold no complete frame:
    the body runs on every payload, in order, and the tail stays. *)
Lemma frames_stream {A : Type} (handle : string -> A -> A) ps tail :
  Forall (fun p => ~ occurs FS_CR p) ps ->
  frame_ready tail = false ->
  forall n a,
    (String.length (stream ps +:+ tail) <= n)%nat ->
    frames handle n (stream ps +:+ tail) a
    = (tail, fold_left (fun a p => handle p a) ps a).
Proof.
  intros Hps Htail. induction Hps as [|p ps Hp _ IH]; intros n a Hn.
  - by apply frames_no_frame.
  - assert (stream (p :: ps) +:+ tail
            = framed EmptyString p (stream ps +:+ tail)) as Hshape.
    { unfold framed, wrap. simpl. by rewrite !str_app_assoc. }
    rewrite Hshape in *. rewrite length_framed in Hn.
    destruct n as [|n]; [simpl in Hn; lia |].
    rewrite frames_turn by (done || apply no_start_byte_in_empty).
    apply IH. simpl in Hn. lia.
Qed.

End Streams.

(* ===================================================================== *)
(** ** What the listener does with a stream *)
(* ===================================================================== *)

Section Listener.
Import JsString Sqlite Hl7 Wire Scenario Client.

Lemma fold_left_snoc (ms acc : list string) :
  fold_left (fun acc m => acc ++ [m]) ms acc = acc ++ ms.
Proof.
  revert acc. induction ms as [|m ms IH]; intros acc; simpl.
  - by rewrite app_nil_r.
  - by rewrite IH, <- app_assoc.
Qed.

(** X1.  Complete frames written back to back in one read, each payload
    free of the end marker, followed by bytes that hold no complete frame:
    the loop hands every payload to its body, in order, and keeps exactly
    the trailing bytes; the listener serves the payloads in that order. *)
Theorem frames_in_one_read (payloads : list string) (tail : string) :
  Forall (fun p => ~ occurs FS_CR p) payloads ->
  frame_ready tail = false ->
  extractFrames (stream payloads +:+ tail) = (payloads, tail)
  /\ forall o s,
       onData o (EmptyString, s) (stream payloads +:+ tail)
       = (tail, serve_all o payloads s).
Proof.
  intros Hps Htail. split.
  - unfold extractFrames. rewrite (frames_stream _ _ _ Hps Htail) by done.
    by rewrite fold_left_snoc.
  - intros o s. unfold onData, serve_all.
    change (fst (EmptyString, s) +:+ stream payloads +:+ tail)
      with (stream payloads +:+ tail).
    by rewrite (frames_stream _ _ _ Hps Htail).
Qed.

Lemma frames_in_one_read_witness :
  extractFrames (stream [adt_a01; orm_o01] +:+ String VT "MSH|^~")
  = ([adt_a01; orm_o01], String VT "MSH|^~")
  /\ forall o s,
       onData o (EmptyString, s)
              (stream [adt_a01; orm_o01] +:+ String VT "MSH|^~")
       = (String VT "MSH|^~", serve_all o [adt_a01; orm_o01] s).
Proof.
  apply frames_in_one_read.
  - repeat constructor; apply search_none_not_occurs; reflexivity.
  - reflexivity.
Defined.

(** X2.  Bytes in front of the first start byte are dropped as soon as a
    frame completes behind them, even when they hold an end marker of
    their own: the loop hands over the payload alone, and the buffer keeps
    what follows the frame. *)
Theorem bytes_before_start_byte_are_dropped (junk payload rest : string) :
  ~ occurs VT_ junk ->
  ~ occurs FS_CR payload ->
  frame_ready rest = false ->
  extractFrames (junk +:+ wrap payload +:+ rest) = ([payload], rest)
  /\ forall o s,
       onData o (EmptyString, s) (junk +:+ wrap payload +:+ rest)
       = (rest, serve o payload s).
Proof.
  intros Hj Hp Hrest.
  assert (junk +:+ wrap payload +:+ rest = framed junk payload rest) as ->.
  { unfold framed, wrap. simpl. by rewrite !str_app_assoc. }
  pose proof (length_framed junk payload rest) as Hlen.
  split.
  - unfold extractFrames. rewrite Hlen.
    replace (String.length junk
             + S (String.length payload + (2 + String.length rest)))%nat
      with (S (String.length junk + String.length payload
               + (2 + String.length rest)))%nat by lia.
    rewrite frames_turn by done. by rewrite frames_no_frame.
  - intros o s. unfold onData.
    change (fst (EmptyString, s) +:+ framed junk payload rest)
      with (framed junk payload rest).
    rewrite Hlen.
    replace (String.length junk
             + S (String.length payload + (2 + String.length rest)))%nat
      with (S (String.length junk + String.length payload
               + (2 + String.length rest)))%nat by lia.
    rewrite frames_turn by done. by rewrite frames_no_frame.
Qed.

Lemma bytes_before_start_byte_are_dropped_witness :
  extractFrames (("noise" +:+ FS_CR) +:+ wrap adt_a01 +:+ "tail")
  = ([adt_a01], "tail")
  /\ forall o s,
       onData o (EmptyString, s)
              (("noise" +:+ FS_CR) +:+ wrap adt_a01 +:+ "tail")
       = ("tail", serve o adt_a01 s).
Proof.
  apply bytes_before_start_byte_are_dropped.
  - apply search_none_not_occurs. reflexivity.
  - apply search_none_not_occurs. reflexivity.
  - reflexivity.
Defined.







Lemma frames_S {A : Type} (handle : string -> A -> A) n b a :
  frames handle (S n) b a
  = if frame_ready b
    then frames handle n (substringFrom b (fsIndex b + 2))
           (handle (substring b (vtIndex b + 1) (fsIndex b)) a)
    else (b, a).
Proof. reflexivity. Qed.

Lemma frames_collect_acc n b (acc : list string) :
  frames (fun m acc => acc ++ [m]) n b acc
  = (fst (frames (fun m acc => acc ++ [m]) n b []),
     acc ++ snd (frames (fun m acc => acc ++ [m]) n b [])).
Proof.
  revert b acc. induction n as [|n IH]; intros b acc.
  - cbn [frames fst snd]. by rewrite app_nil_r.
  - rewrite !frames_S. destruct (frame_ready b).
    + rewrite (IH _ (acc ++ _)), (IH _ ([] ++ _)). cbn [fst snd].
      by rewrite <- app_assoc.
    + cbn [fst snd]. by rewrite app_nil_r.
Qed.

(** The loop with any body is the loop that collects the messages,
    followed by the body run on each of them.  *)
Lemma frames_fold {A : Type} (handle : string -> A -> A) n b a :
  frames handle n b a
  = (fst (frames (fun m acc => acc ++ [m]) n b []),
     fold_left (fun a m => handle m a)
               (snd (frames (fun m acc => acc ++ [m]) n b [])) a).
Proof.
  revert b a. induction n as [|n IH]; intros b a; [done |].
  rewrite !frames_S. destruct (frame_ready b); [| done].
  rewrite IH, (frames_collect_acc n _ ([] ++ _)). done.
Qed.

Lemma serve_all_cons o m ms s :
  serve_all o (m :: ms) s = serve_all o ms (serve o m s).
Proof. reflexivity. Qed.

Lemma serve_all_handed o ms s :
  handed (serve_all o ms s) = handed s ++ (job_of <$> ms).
Proof.
  revert s. induction ms as [|m ms IH]; intros s.
  - cbn [serve_all fold_left fmap list_fmap]. by rewrite app_nil_r.
  - rewrite serve_all_cons, IH, serve_handed, fmap_cons.
    by rewrite <- app_assoc.
Qed.

Lemma serve_all_acks o ms s :
  msa <$> socket (serve_all o ms s)
  = (msa <$> socket s)
    ++ ((fun m => Some ["MSA"; ackCode (fst (processHL7Message m)); "MSG"])
        <$> ms).
Proof.
  revert s. induction ms as [|m ms IH]; intros s.
  - cbn [serve_all fold_left fmap list_fmap]. by rewrite app_nil_r.
  - rewrite serve_all_cons, IH, serve_socket, fmap_app, !fmap_cons.
    rewrite fmap_nil, msa_sendAck. by rewrite <- app_assoc.
Qed.

(** X4.  Whatever the buffer and the chunk, the listener serves exactly
    the messages that the frame loop extracts, in order: each one hands its
    job to the database and gets one ACK, whose code is decided by that
    message alone and whose MSA segment names [MSG]. *)
Theorem one_ack_per_frame o (c : connection) (data : string) :
  onData o c data
  = (snd (extractFrames (fst c +:+ data)),
     serve_all o (fst (extractFrames (fst c +:+ data))) (snd c))
  /\ handed (snd (onData o c data))
     = handed (snd c) ++ (job_of <$> fst (extractFrames (fst c +:+ data)))
  /\ msa <$> socket (snd (onData o c data))
     = (msa <$> socket (snd c))
       ++ ((fun m => Some ["MSA"; ackCode (fst (processHL7Message m)); "MSG"])
           <$> fst (extractFrames (fst c +:+ data))).
Proof.
  assert (onData o c data
          = (snd (extractFrames (fst c +:+ data)),
             serve_all o (fst (extractFrames (fst c +:+ data))) (snd c)))
    as Heq.
  { unfold onData, extractFrames, serve_all.
    rewrite frames_fold.
    by destruct (frames (fun m acc => acc ++ [m]) _ _ []). }
  split; [done |]. rewrite Heq. simpl snd.
  split; [apply serve_all_handed | apply serve_all_acks].
Qed.

Lemma frames_suffix {A : Type} (handle : string -> A -> A) n b a :
  exists pre, b = pre +:+ fst (frames handle n b a).
Proof.
  revert b a. induction n as [|n IH]; intros b a.
  - by exists EmptyString.
  - rewrite frames_S. destruct (frame_ready b); [| by exists EmptyString].
    destruct (IH (substringFrom b (fsIndex b + 2))
                 (handle (substring b (vtIndex b + 1) (fsIndex b)) a))
      as [pre Hpre].
    exists (take (clamp b (fsIndex b + 2)) b +:+ pre).
    rewrite str_app_assoc, <- Hpre, substringFrom_drop.
    by rewrite str_take_drop.
Qed.

(** X5.  When the listener returns, the buffer is a tail of the bytes it
    had plus the bytes received, and that tail holds no complete frame:
    nothing is reordered or invented, and no ready frame is left
    waiting. *)
Theorem buffer_keeps_unprocessed_tail o (c : connection) (data : string) :
  (exists consumed, fst c +:+ data = consumed +:+ fst (onData o c data))
  /\ frame_ready (fst (onData o c data)) = false.
Proof.
  split; [apply frames_suffix | apply onData_complete].
Qed.

End Listener.

(* ===================================================================== *)
(** ** Routing and rejection *)
(* ===================================================================== *)

Section Routing.
Import JsString Sqlite Hl7 Wire Scenario Client.

Lemma is_str_true x lit : is_str x lit = true <-> x = Some lit.
Proof. unfold is_str. apply bool_decide_eq_true. Qed.

Lemma is_str_false x lit : is_str x lit = false <-> x <> Some lit.
Proof. unfold is_str. apply bool_decide_eq_false. Qed.

(** The dispatch of [processHL7MessageManual] in terms of the components
    of MSH-9. *)
Lemma job_of_dispatch m msh :
  find (startsWith "MSH|") (segments_of m) = Some msh ->
  let parts := split "^" (at_or_empty (split "|" msh) 8) in
  job_of m
  = if is_str (parts !! 0%nat) "ADT"
       && (is_str (parts !! 1%nat) "A01" || is_str (parts !! 1%nat) "A08")
    then handleADTPatientManual (segments_of m)
    else if is_str (parts !! 0%nat) "ORM" && is_str (parts !! 1%nat) "O01"
         then handleORMOrderManual (segments_of m)
         else Idle.
Proof.
  intros Hmsh parts. subst parts.
  unfold job_of, processHL7Message, processHL7MessageManual.
  rewrite Hmsh.
  generalize (handleADTPatientManual (segments_of m)),
             (handleORMOrderManual (segments_of m)).
  intros adt orm.
  set (mt := at_or_empty (split "|" msh) 8).
  destruct (includes "^" mt) eqn:Hinc.
  - destruct (is_str (split "^" mt !! 0%nat) "ADT" && _); [done |].
    by destruct (is_str (split "^" mt !! 0%nat) "ORM" && _).
  - rewrite (split_no_separator _ _ Hinc).
    change ([mt] !! 0%nat) with (Some mt).
    change ([mt] !! 1%nat) with (@None string).
    change (is_str None "A01") with false.
    change (is_str None "A08") with false.
    change (is_str None "O01") with false.
    change (is_str (Some EmptyString) "A01") with false.
    change (is_str (Some EmptyString) "A08") with false.
    change (is_str (Some EmptyString) "O01") with false.
    rewrite !andb_false_r. done.
Qed.

(** X6.  The routing table.  Only the first two components of MSH-9
    count: ADT with A01 or A08 goes to the patient handler, ORM with O01 to
    the order handler, and every other message type (one without a
    trigger component among them) hands nothing to the database.  In all
    three cases the message is accepted. *)
Theorem routing_table m msh :
  find (startsWith "MSH|") (segments_of m) = Some msh ->
  let parts := split "^" (at_or_empty (split "|" msh) 8) in
  let adt := parts !! 0%nat = Some "ADT"
             /\ (parts !! 1%nat = Some "A01" \/ parts !! 1%nat = Some "A08") in
  let orm := parts !! 0%nat = Some "ORM" /\ parts !! 1%nat = Some "O01" in
  (adt -> job_of m = handleADTPatientManual (segments_of m))
  /\ (orm -> job_of m = handleORMOrderManual (segments_of m))
  /\ (~ adt -> ~ orm -> job_of m = Idle)
  /\ fst (processHL7Message m) = true.
Proof.
  intros Hmsh parts adt orm. subst adt orm.
  rewrite (job_of_dispatch m msh Hmsh). fold parts.
  destruct (is_str (parts !! 0%nat) "ADT") eqn:E0;
    destruct (is_str (parts !! 1%nat) "A01") eqn:E1;
    destruct (is_str (parts !! 1%nat) "A08") eqn:E2;
    destruct (is_str (parts !! 0%nat) "ORM") eqn:E3;
    destruct (is_str (parts !! 1%nat) "O01") eqn:E4;
    rewrite ?is_str_true, ?is_str_false in *;
    cbn [andb orb];
    (split; [| split; [| split]]);
    try (rewrite process_flag, Hmsh; by apply bool_decide_eq_true_2);
    try done; try (intros; exfalso; intuition congruence);
    intuition congruence.
Qed.

Lemma routing_table_witness :
  job_of adt_a01 = handleADTPatientManual (segments_of adt_a01)
  /\ job_of orm_o01 = handleORMOrderManual (segments_of orm_o01)
  /\ job_of adt_no_trigger = Idle.
Proof.
  split; [| split].
  - apply (routing_table adt_a01
             "MSH|^~\&|S|F|RAD|F|20251005120000||ADT^A01|MSG001|P|2.5"
             eq_refl).
    split; [reflexivity | left; reflexivity].
  - apply (routing_table orm_o01
             "MSH|^~\&|SENDING_APP|SENDING_FACILITY|RAD|FACILITY|20251005120100||ORM^O01|MSG002|P|2.5"
             eq_refl).
    split; reflexivity.
  - apply (routing_table adt_no_trigger
             "MSH|^~\&|S|F|RAD|F|20251005120000||ADT|MSG001|P|2.5"
             eq_refl).
    + intros [_ [H | H]]; discriminate H.
    + intros [H _]; discriminate H.
Defined.

Lemma invalid_ssn_length s :
  invalid_ssn s = false <-> String.length s = 14%nat.
Proof.
  unfold invalid_ssn, len. rewrite orb_false_iff, !negb_false_iff.
  rewrite Z.eqb_eq. split.
  - intros [_ H]. lia.
  - intros H. split; [by destruct s | lia].
Qed.

Lemma handleADT_rejects segments :
  (forall pid, find (startsWith "PID|") segments = Some pid ->
               String.length (ssn_of pid) <> 14%nat) ->
  handleADTPatientManual segments = Idle.
Proof.
  intros H. unfold handleADTPatientManual.
  destruct (find (startsWith "PID|") segments) as [pid|]; [|done].
  specialize (H pid eq_refl). rewrite <- invalid_ssn_length in H.
  apply not_false_is_true in H. fold (ssn_of pid). by rewrite H.
Qed.

Lemma handleORM_rejects segments :
  (forall pid, find (startsWith "PID|") segments = Some pid ->
               String.length (ssn_of pid) <> 14%nat) ->
  handleORMOrderManual segments = Idle.
Proof.
  intros H. unfold handleORMOrderManual.
  destruct (find (startsWith "PID|") segments) as [pid|]; [|done].
  destruct (find (startsWith "OBR|") segments) as [obr|]; [|done].
  specialize (H pid eq_refl). rewrite <- invalid_ssn_length in H.
  apply not_false_is_true in H. fold (ssn_of pid). by rewrite H.
Qed.

Lemma job_of_cases m :
  job_of m = Idle
  \/ job_of m = handleADTPatientManual (segments_of m)
  \/ job_of m = handleORMOrderManual (segments_of m).
Proof.
  destruct (find (startsWith "MSH|") (segments_of m)) as [msh|] eqn:E.
  - rewrite (job_of_dispatch m msh E).
    destruct (_ && _); [by right; left |].
    destruct (_ && _); [by right; right | by left].
  - left. by apply job_of_headless.
Qed.

(** X7.  A message with a header whose PID segment is missing, or whose
    PID-3 is not fourteen code units long, is dropped without a trace: no
    statement reaches the database, whatever the message type, and the
    sender still gets AA. *)
Theorem bad_identifier_is_rejected_silently m msh o e s :
  find (startsWith "MSH|") (segments_of m) = Some msh ->
  (forall pid, find (startsWith "PID|") (segments_of m) = Some pid ->
               String.length (ssn_of pid) <> 14%nat) ->
  exec o (job_of m) e = e /\ ack_code o m s = Some "AA".
Proof.
  intros Hmsh Hpid. split.
  - destruct (job_of_cases m) as [-> | [-> | ->]]; [done | |].
    + by rewrite handleADT_rejects.
    + by rewrite handleORM_rejects.
  - rewrite ack_code_serve, process_flag, Hmsh.
    by rewrite bool_decide_eq_true_2 by eauto.
Qed.

Lemma bad_identifier_is_rejected_silently_witness :
  exec calm (job_of adt_short_id) (boot known_patient) = boot known_patient
  /\ ack_code calm adt_short_id (snd accepted) = Some "AA".
Proof.
  apply (bad_identifier_is_rejected_silently adt_short_id
           "MSH|^~\&|S|F|RAD|F|20251005120000||ADT^A01|MSG001|P|2.5").
  - reflexivity.
  - intros pid [= <-]. by vm_compute.
Defined.

End Routing.

(* ===================================================================== *)
(** ** What the handlers do to the store *)
(* ===================================================================== *)

Section StoreEffects.
Import JsString Sqlite Hl7 Wire Scenario Client.

Lemma handleADT_cases segments :
  handleADTPatientManual segments = Idle
  \/ exists pid,
       find (startsWith "PID|") segments = Some pid
       /\ String.length (ssn_of pid) = 14%nat
       /\ handleADTPatientManual segments
          = Run (InsertOrReplacePatient
                   (ssn_of pid) "N/A"
                   (fullNameOf (at_or_empty (split "|" pid) 5))
                   (at_or_empty (split "|" pid) 7)
                   (mapGender (at_or_empty (split "|" pid) 8))
                   (at_or_empty (split "|" pid) 11))
                (fun _ => Idle).
Proof.
  destruct (find (startsWith "PID|") segments) as [pid|] eqn:Hpid.
  - destruct (invalid_ssn (ssn_of pid)) eqn:Hssn.
    + left. unfold handleADTPatientManual. rewrite Hpid.
      fold (ssn_of pid). by rewrite Hssn.
    + right. exists pid. split; [done |].
      split; [by apply invalid_ssn_length |].
      by apply handleADT_job.
  - left. unfold handleADTPatientManual. by rewrite Hpid.
Qed.

Lemma handleORM_cases segments :
  handleORMOrderManual segments = Idle
  \/ exists pid obr,
       find (startsWith "PID|") segments = Some pid
       /\ find (startsWith "OBR|") segments = Some obr
       /\ String.length (ssn_of pid) = 14%nat
       /\ handleORMOrderManual segments
          = Get (SelectOpenVisit (ssn_of pid))
                (check_callback (ssn_of pid) (reason_of obr)).
Proof.
  destruct (find (startsWith "PID|") segments) as [pid|] eqn:Hpid;
    [| left; unfold handleORMOrderManual; by rewrite Hpid].
  destruct (find (startsWith "OBR|") segments) as [obr|] eqn:Hobr;
    [| left; unfold handleORMOrderManual; by rewrite Hpid, Hobr].
  destruct (invalid_ssn (ssn_of pid)) eqn:Hssn.
  - left. unfold handleORMOrderManual. rewrite Hpid, Hobr.
    fold (ssn_of pid). by rewrite Hssn.
  - right. exists pid, obr. repeat split; try done.
    + by apply invalid_ssn_length.
    + by apply handleORM_job.
Qed.

(** X8.  The patient handler never touches [patient_visits], and the only
    row of [patients] it can change is the one keyed by PID-3 of the
    message, a key of fourteen code units. *)
Theorem admit_touches_one_patient segments o e :
  patient_visits (db (exec o (handleADTPatientManual segments) e))
  = patient_visits (db e)
  /\ forall k,
       patients (db (exec o (handleADTPatientManual segments) e)) !! k
       <> patients (db e) !! k ->
       String.length k = 14%nat
       /\ ssn_of <$> find (startsWith "PID|") segments = Some k.
Proof.
  destruct (handleADT_cases segments) as [-> | (pid & Hpid & Hlen & ->)].
  - split; [done | by intros k []].
  - cbn [exec]. destruct (storage_error o (statements e)); cbn [run].
    + split; [done | by intros k []].
    + cbn [db patients patient_visits]. split; [done |].
      intros k Hk. destruct (decide (ssn_of pid = k)) as [<- | Hne].
      * by rewrite Hpid.
      * by rewrite lookup_insert_ne in Hk.
Qed.

Lemma admit_touches_one_patient_witness :
  String.length "26409301400274" = 14%nat
  /\ ssn_of <$> find (startsWith "PID|") (segments_of adt_a01)
     = Some "26409301400274".
Proof.
  destruct (admit_touches_one_patient (segments_of adt_a01) calm
              (boot empty_store)) as [_ Hk].
  apply Hk. by vm_compute.
Defined.

(** X9.  The order handler never touches [patients], and it leaves
    [patient_visits] as it was or longer by one row: a visit of the
    patient named by PID-3 (fourteen code units), with the identifier just
    drawn, status open, type outpatient, department radiology, created by
    [hl7-system], and the reason derived from OBR. *)
Theorem order_adds_at_most_one_visit segments o e :
  patients (db (exec o (handleORMOrderManual segments) e)) = patients (db e)
  /\ (patient_visits (db (exec o (handleORMOrderManual segments) e))
      = patient_visits (db e)
      \/ exists pid obr,
           find (startsWith "PID|") segments = Some pid
           /\ find (startsWith "OBR|") segments = Some obr
           /\ String.length (ssn_of pid) = 14%nat
           /\ patient_visits (db (exec o (handleORMOrderManual segments) e))
              = patient_visits (db e)
                ++ [Visit (uuid_v4 o (uuids e)) (ssn_of pid) "open"
                          (reason_of obr) "outpatient" "radiology"
                          "hl7-system"]).
Proof.
  destruct (handleORM_cases segments)
    as [-> | (pid & obr & Hpid & Hobr & Hlen & ->)]; [by split; [| left] |].
  set (ins := InsertVisit (uuid_v4 o (uuids e)) (ssn_of pid) (reason_of obr)).
  assert (forall f,
            patients (snd (run f ins (db e))) = patients (db e)
            /\ (patient_visits (snd (run f ins (db e))) = patient_visits (db e)
                \/ patient_visits (snd (run f ins (db e)))
                   = patient_visits (db e)
                     ++ [Visit (uuid_v4 o (uuids e)) (ssn_of pid) "open"
                               (reason_of obr) "outpatient" "radiology"
                               "hl7-system"])) as Hrun.
  { intros [msg|]; cbn [run ins]; [by split; [| left] |].
    destruct (existsb _ _); cbn [snd patients patient_visits];
      by split; [| (left + right)]. }
  destruct (storage_error o (statements e)) as [msg|] eqn:Herr.
  - pose proof (exec_check_passes o e (ssn_of pid) (reason_of obr) (Some msg))
      as Hexec.
    cbv zeta in Hexec. specialize (Hexec ltac:(left; eauto) Herr).
    rewrite Hexec. cbn [db]. fold ins.
    destruct (Hrun (storage_error o (S (statements e)))) as [Hp [Hv | Hv]].
    + by split; [| left].
    + split; [done |]. right. by exists pid, obr.
  - destruct (List.find (open_visit_of (ssn_of pid)) (patient_visits (db e)))
      as [v|] eqn:Hfind.
    + rewrite (exec_check_finds o e _ (reason_of obr) v Herr Hfind).
      by split; [| left].
    + pose proof (exec_check_passes o e (ssn_of pid) (reason_of obr) None)
        as Hexec.
      cbv zeta in Hexec. specialize (Hexec ltac:(by right) Herr).
      rewrite Hexec. cbn [db]. fold ins.
      destruct (Hrun (storage_error o (S (statements e)))) as [Hp [Hv | Hv]].
      * by split; [| left].
      * split; [done |]. right. by exists pid, obr.
Qed.



Lemma find_snoc_none {A : Type} (P : A -> bool) l x :
  List.find P l = None -> P x = true -> List.find P (l ++ [x]) = Some x.
Proof.
  induction l as [|a l IH]; simpl; intros Hnone Hx.
  - by rewrite Hx.
  - destruct (P a); [done | by apply IH].
Qed.

(** X11.  Sending the same order again creates no second visit: with
    working storage and a new identifier that is not taken, running the
    order handler a second time, after the first run has completed, leaves
    the store as the first run left it. *)
Theorem order_twice_creates_one_visit segments o e :
  (forall n, storage_error o n = None) ->
  existsb (has_visit_id (uuid_v4 o (uuids e))) (patient_visits (db e))
  = false ->
  db (exec o (handleORMOrderManual segments)
           (exec o (handleORMOrderManual segments) e))
  = db (exec o (handleORMOrderManual segments) e).
Proof.
  intros Hok Hfresh.
  destruct (handleORM_cases segments)
    as [-> | (pid & obr & _ & _ & _ & ->)]; [done |].
  destruct (List.find (open_visit_of (ssn_of pid)) (patient_visits (db e)))
    as [v|] eqn:Hfind.
  - rewrite (exec_check_finds o e _ (reason_of obr) v (Hok _) Hfind).
    erewrite exec_check_finds; [done | apply Hok | exact Hfind].
  - pose proof (exec_check_passes o e (ssn_of pid) (reason_of obr) None)
      as Hexec.
    cbv zeta in Hexec. specialize (Hexec ltac:(by right) (Hok _)).
    rewrite Hexec. rewrite (Hok (S (statements e))).
    cbn [run]. rewrite Hfresh. cbn [fst snd].
    erewrite exec_check_finds; [done | apply Hok |].
    cbn [db patient_visits]. apply (find_snoc_none _ _ _ Hfind).
    apply open_visit_of_spec. cbn [patient_ssn visit_status created_by].
    tauto.
Qed.

Lemma order_twice_creates_one_visit_witness :
  patient_visits
    (db (exec calm (handleORMOrderManual (segments_of orm_o01))
              (exec calm (handleORMOrderManual (segments_of orm_o01))
                    (boot empty_store))))
  = [Visit "visit-0" "26409301400275" "open" "CHEST X-RAY" "outpatient"
           "radiology" "hl7-system"].
Proof.
  rewrite (order_twice_creates_one_visit (segments_of orm_o01) calm
             (boot empty_store)); [by vm_compute | done | done].
Defined.

End StoreEffects.

(* ===================================================================== *)
(** ** Line endings, names and the test clients *)
(* ===================================================================== *)

Section Parsing.
Import JsString Sqlite Hl7 Wire Scenario Client.

Lemma replaceAll_undoes a :
  (if ascii_eqb (if ascii_eqb a CR then LF else a) LF then CR
   else (if ascii_eqb a CR then LF else a))
  = if ascii_eqb a LF then CR else a.
Proof.
  destruct (ascii_eqb a CR) eqn:Ecr.
  - apply ascii_eqb_eq in Ecr. by subst a.
  - done.
Qed.

Lemma normalize_after_line_feeds m :
  replaceAll LF CR (replaceAll CR LF m) = replaceAll LF CR m.
Proof.
  induction m as [|a m IH]; [done |].
  cbn [replaceAll]. by rewrite IH, replaceAll_undoes.
Qed.

Lemma normalize_twice m :
  replaceAll LF CR (replaceAll LF CR m) = replaceAll LF CR m.
Proof.
  induction m as [|a m IH]; [done |].
  cbn [replaceAll]. rewrite IH. f_equal.
  destruct (ascii_eqb a LF) eqn:E; [done | by rewrite E].
Qed.

Lemma includes_replaced c d s :
  c <> d -> includes c (replaceAll c d s) = false.
Proof.
  intros Hne. induction s as [|a s IH]; [done |].
  cbn [replaceAll includes]. rewrite IH, orb_false_r.
  destruct (ascii_eqb a c) eqn:E; [| done].
  apply ascii_eqb_neq. congruence.
Qed.

Lemma split_nonempty c s : split c s <> [].
Proof.
  destruct s as [|a s]; cbn [split]; [done |].
  destruct (ascii_eqb a c); [done |]. by destruct (split c s).
Qed.

(** The pieces of a split hold neither the separator nor any character
    the whole string does not hold. *)
Lemma split_pieces c d s :
  Forall (fun x => includes c x = false
                   /\ (includes d s = false -> includes d x = false))
         (split c s).
Proof.
  induction s as [|a s IH]; cbn [split].
  - by repeat constructor.
  - destruct (ascii_eqb a c) eqn:E.
    + constructor; [done |].
      eapply Forall_impl; [exact IH |].
      intros x [Hc Hd]. split; [done |].
      cbn [includes]. intros H. apply orb_false_iff in H as [_ H]. auto.
    + pose proof (split_nonempty c s) as Hne.
      destruct (split c s) as [|h r]; [done |].
      apply Forall_cons in IH as [[Hc Hd] IH].
      constructor.
      * cbn [includes]. rewrite E, Hc. split; [done |].
        intros H. apply orb_false_iff in H as [-> H]. by rewrite Hd.
      * eapply Forall_impl; [exact IH |].
        intros x [Hc' Hd']. split; [done |].
        cbn [includes]. intros H. apply orb_false_iff in H as [_ H]. auto.
Qed.

(** X12.  Carriage returns and line feeds are interchangeable as segment
    separators: a message is processed the same way with either, and no
    segment handed to a handler is blank or holds a line break. *)
Theorem line_endings_are_interchangeable m :
  processHL7Message (replaceAll CR LF m) = processHL7Message m
  /\ processHL7Message (replaceAll LF CR m) = processHL7Message m
  /\ Forall (fun seg => includes CR seg = false
                        /\ includes LF seg = false
                        /\ trim seg <> EmptyString)
            (segments_of m).
Proof.
  assert (segments_of (replaceAll CR LF m) = segments_of m) as H1.
  { unfold segments_of. by rewrite normalize_after_line_feeds. }
  assert (segments_of (replaceAll LF CR m) = segments_of m) as H2.
  { unfold segments_of. by rewrite normalize_twice. }
  split; [| split].
  - unfold processHL7Message, processHL7MessageManual. by rewrite H1.
  - unfold processHL7Message, processHL7MessageManual. by rewrite H2.
  - unfold segments_of. apply Forall_forall. intros seg Hin.
    apply list_elem_of_In, filter_In in Hin as [Hin Hlen].
    pose proof (split_pieces CR LF (replaceAll LF CR m)) as Hall.
    rewrite Forall_forall in Hall.
    apply list_elem_of_In, Hall in Hin as [Hcr Hlf].
    split; [done |]. split.
    + apply Hlf. by apply includes_replaced.
    + intros Hblank. rewrite Hblank in Hlen. discriminate Hlen.
Qed.

Lemma serve_normalized o m s :
  serve o (replaceAll LF CR m) s = serve o m s.
Proof.
  unfold serve.
  by destruct (line_endings_are_interchangeable m) as (_ & -> & _).
Qed.

(** X13.  The test client and the service together: the chunk
    [sendHL7Message] writes for a message, line feeds and all, is taken
    off a fresh connection as one frame and served exactly as the message
    itself, leaving the buffer empty.  The one condition is that the
    message, once its line feeds are carriage returns, holds no end
    marker. *)
Theorem test_client_frame_is_served o m :
  ~ occurs FS_CR (replaceAll LF CR m) ->
  onData o accepted (mllpMessage m)
  = (EmptyString, serve o m (snd accepted)).
Proof.
  intros Hno. unfold onData.
  change (fst accepted +:+ mllpMessage m) with (wrap (replaceAll LF CR m)).
  by rewrite frames_wrap, serve_normalized.
Qed.

Lemma test_client_frame_is_served_witness :
  onData calm accepted (mllpMessage adtMessage)
  = (EmptyString, serve calm adtMessage (snd accepted)).
Proof.
  apply test_client_frame_is_served.
  apply search_none_not_occurs. reflexivity.
Defined.

Lemma occurs_includesStr p s : occurs p s -> includesStr s p = true.
Proof.
  intros H. unfold includesStr.
  destruct (search p s) eqn:E; [done |].
  by apply search_none_not_occurs in E.
Qed.

(** X14.  Every ACK for a message with a header passes the checks of both
    test clients, whatever the clock: it holds the end marker the first
    client waits for, the text [MSA|AA|] it looks for, and the text [|AA|]
    the second client looks for. *)
Theorem ack_passes_client_checks o m s msh :
  find (startsWith "MSH|") (segments_of m) = Some msh ->
  exists chunk,
    last (socket (serve o m s)) = Some (SocketWrite chunk)
    /\ responseComplete chunk = true
    /\ messageAccepted chunk = true
    /\ checkAccepted chunk = true.
Proof.
  intros Hmsh. rewrite serve_socket, last_snoc, process_flag, Hmsh.
  rewrite bool_decide_eq_true_2 by eauto.
  unfold sendAck. generalize (ackHeader (clock o (readings s))). intros h.
  exists (String VT (h +:+ String CR ("MSA|AA|MSG" +:+ FS_CR))).
  split; [done |].
  split; [| split]; apply occurs_includesStr.
  - exists (String VT (h +:+ String CR "MSA|AA|MSG")), EmptyString.
    cbn [String.append]. by rewrite str_app_assoc.
  - exists (String VT (h +:+ String CR EmptyString)), ("MSG" +:+ FS_CR).
    cbn [String.append]. by rewrite str_app_assoc.
  - exists (String VT (h +:+ String CR "MSA")), ("MSG" +:+ FS_CR).
    cbn [String.append]. by rewrite str_app_assoc.
Qed.

Lemma ack_passes_client_checks_witness :
  exists chunk,
    last (socket (serve calm adtMessage (snd accepted)))
    = Some (SocketWrite chunk)
    /\ responseComplete chunk = true
    /\ messageAccepted chunk = true
    /\ checkAccepted chunk = true.
Proof.
  apply (ack_passes_client_checks calm adtMessage (snd accepted)
           "MSH|^~\&|SENDING_APP|SENDING_FACILITY|RAD|FACILITY|20251005120000||ADT^A01|MSG001|P|2.5").
  reflexivity.
Defined.

Lemma split_three c x y z :
  includes c x = false -> includes c y = false ->
  exists r, split c (x +:+ String c (y +:+ String c z)) = x :: y :: r.
Proof.
  intros Hx Hy. rewrite split_at_separator by done.
  rewrite split_at_separator by done. eauto.
Qed.

(** X15.  What becomes of a name.  A third component (the middle name)
    and anything after it is dropped; a family name followed by a bare
    separator is stored trimmed; a name without separator is stored as it
    is, untrimmed. *)
Theorem name_components family given rest :
  includes "^" family = false ->
  includes "^" given = false ->
  fullNameOf (family +:+ "^" +:+ given +:+ "^" +:+ rest)
  = trim (given +:+ " " +:+ family)
  /\ fullNameOf (family +:+ "^") = trim family
  /\ fullNameOf family = family.
Proof.
  intros Hf Hg. split; [| split].
  - unfold fullNameOf.
    rewrite includes_app_r by reflexivity.
    change ("^" +:+ given +:+ "^" +:+ rest)
      with (String "^" (given +:+ String "^" rest)).
    destruct (split_three "^" family given rest Hf Hg) as [r ->].
    done.
  - unfold fullNameOf.
    rewrite includes_app_r by reflexivity.
    change (family +:+ "^") with (family +:+ String "^" EmptyString).
    rewrite split_at_separator by done.
    done.
  - unfold fullNameOf. by rewrite Hf.
Qed.

Lemma name_components_witness :
  fullNameOf ("AHMED" +:+ "^" +:+ "MOHAMED" +:+ "^" +:+ "ALI")
  = trim ("MOHAMED" +:+ " " +:+ "AHMED")
  /\ fullNameOf ("AHMED" +:+ "^") = trim "AHMED"
  /\ fullNameOf "AHMED" = "AHMED".
Proof. apply name_components; reflexivity. Defined.

End Parsing.

(* ===================================================================== *)
(** ** Rows and timestamps *)
(* ===================================================================== *)

Section Rows.
Import JsString Sqlite Hl7 Wire Scenario Client.

Lemma mapGender_ok g : gender_ok (mapGender g).
Proof.
  unfold mapGender, gender_ok.
  destruct (negb (truthy g)); [by left |].
  destruct (eqb (toUpperCase g) "M"); [by right; left |].
  destruct (eqb (toUpperCase g) "F"); [by right; right; left |].
  by right; right; right.
Qed.

(** X16.  The patient handler keeps the table well formed: when every row
    sits under its own [ssn] and satisfies the CHECK constraint on
    [gender], the same holds after the handler has run, whatever the
    message and whether the statement succeeds or fails. *)
Theorem admit_keeps_patients_ok segments o e :
  patients_ok (db e) ->
  patients_ok (db (exec o (handleADTPatientManual segments) e)).
Proof.
  intros Hok.
  destruct (handleADT_cases segments) as [-> | (pid & _ & _ & ->)]; [done |].
  cbn [exec]. destruct (storage_error o (statements e)); cbn [run]; [done |].
  cbn [db]. intros k p. cbn [patients].
  destruct (decide (ssn_of pid = k)) as [<- | Hne].
  - rewrite lookup_insert_eq. intros [= <-]. cbn [ssn gender].
    split; [done | apply mapGender_ok].
  - rewrite lookup_insert_ne by done. apply Hok.
Qed.

Lemma known_patient_ok : patients_ok known_patient.
Proof.
  intros k p H. unfold known_patient in H. cbn [patients] in H.
  apply lookup_singleton_Some in H as [<- <-].
  split; [done | by right; left].
Qed.

Lemma admit_keeps_patients_ok_witness :
  patients_ok (db (exec calm (handleADTPatientManual (segments_of adt_a01))
                        (boot known_patient))).
Proof.
  apply admit_keeps_patients_ok. exact known_patient_ok.
Defined.

Lemma removeAll_app c x y :
  removeAll c (x +:+ y) = removeAll c x +:+ removeAll c y.
Proof.
  induction x as [|a x IH]; [done |].
  change (String a x +:+ y) with (String a (x +:+ y)).
  cbn [removeAll]. destruct (ascii_eqb a c); [done |].
  by rewrite IH.
Qed.

Lemma removeAll_absent c x : includes c x = false -> removeAll c x = x.
Proof.
  induction x as [|a x IH]; [done |].
  cbn [includes removeAll]. intros H.
  apply orb_false_iff in H as [-> H]. by rewrite IH.
Qed.

(** Three fields joined by a separator, then anything: the first
    [|a| + |b| + |c| + 2] code units without the separator are the three
    fields. *)
Lemma three_fields sep a b c rest n :
  includes sep a = false -> includes sep b = false ->
  includes sep c = false ->
  n = (String.length a + String.length b + String.length c + 2)%nat ->
  removeAll sep
    (slice0 (a +:+ String sep (b +:+ String sep (c +:+ rest))) n)
  = a +:+ b +:+ c.
Proof.
  intros Ha Hb Hc ->. unfold slice0.
  assert (a +:+ String sep (b +:+ String sep (c +:+ rest))
          = (a +:+ String sep (b +:+ String sep c)) +:+ rest) as ->.
  { rewrite !str_app_assoc. simpl. by rewrite !str_app_assoc. }
  replace (String.length a + String.length b + String.length c + 2)%nat
    with (String.length (a +:+ String sep (b +:+ String sep c))).
  2:{ rewrite str_length_app. simpl. rewrite str_length_app. simpl. lia. }
  rewrite str_take_app, removeAll_app.
  cbn [removeAll]. rewrite ascii_eqb_refl, removeAll_app.
  cbn [removeAll]. rewrite ascii_eqb_refl.
  by rewrite !removeAll_absent.
Qed.

(** X17.  The timestamp of an ACK.  When the clock renders the date as
    [YYYY-MM-DD...] and the time as [HH:MM:SS...], the timestamp is the
    fourteen characters [YYYYMMDDHHMMSS]: the date of [toISOString]
    followed by the time of [toTimeString]. *)
Theorem ack_timestamp_format r y mo d hh mi ss restI restT :
  toISOString r = y +:+ "-" +:+ mo +:+ "-" +:+ d +:+ restI ->
  toTimeString r = hh +:+ ":" +:+ mi +:+ ":" +:+ ss +:+ restT ->
  String.length y = 4%nat -> String.length mo = 2%nat ->
  String.length d = 2%nat ->
  String.length hh = 2%nat -> String.length mi = 2%nat ->
  String.length ss = 2%nat ->
  includes "-" y = false -> includes "-" mo = false ->
  includes "-" d = false ->
  includes ":" hh = false -> includes ":" mi = false ->
  includes ":" ss = false ->
  timestamp r = y +:+ mo +:+ d +:+ hh +:+ mi +:+ ss
  /\ String.length (timestamp r) = 14%nat.
Proof.
  intros HI HT Ly Lmo Ld Lhh Lmi Lss Hy Hmo Hd Hhh Hmi Hss.
  assert (timestamp r = y +:+ mo +:+ d +:+ hh +:+ mi +:+ ss) as Hts.
  { unfold timestamp. rewrite HI, HT.
    change ("-" +:+ mo +:+ "-" +:+ d +:+ restI)
      with (String "-" (mo +:+ String "-" (d +:+ restI))).
    change (":" +:+ mi +:+ ":" +:+ ss +:+ restT)
      with (String ":" (mi +:+ String ":" (ss +:+ restT))).
    rewrite !three_fields by (done || lia).
    by rewrite !str_app_assoc. }
  split; [done |]. rewrite Hts, !str_length_app. lia.
Qed.

Lemma ack_timestamp_format_witness :
  timestamp noon = "2025" +:+ "10" +:+ "05" +:+ "12" +:+ "00" +:+ "00"
  /\ String.length (timestamp noon) = 14%nat.
Proof.
  apply (ack_timestamp_format noon "2025" "10" "05" "12" "00" "00"
           "T10:00:00.000Z" " GMT+0200 (EET)"); reflexivity.
Defined.

End Rows.
